(** * The mock Hydra API server and its health-check proxy

    A shallow embedding of [docker/mock-hydra-server.py] and
    [docker/health-check.py].

    Conventions.
    - A Python [str] or [bytes] value is a [string]: one [ascii] per byte.
      The request target and the header values reach a handler decoded as
      ISO-8859-1, one character per byte of the request line.
    - [json.dumps(v).encode()] written to [wfile] is kept as the value [v]
      itself, in the [body] of the response.
    - The module-level dict [projects_storage] is passed explicitly: a
      handler takes the mapping and returns the mapping it leaves behind.
    - The functions of the Python library that depend on Unicode tables or
      on the JSON grammar ([bytes.decode], [json.loads], [str.title]) are
      the fields of the class [Runtime]; every statement holds for every
      runtime. *)

From Stdlib Require Import String Ascii List ZArith Bool Lia.
Import ListNotations.

Set Warnings "-register-all".

Local Open Scope list_scope.
Local Open Scope string_scope.
Local Open Scope Z_scope.

(* ================================================================= *)
(** ** Python strings *)

Module PyStr.

(** [s.startswith(pre)] *)
Fixpoint startswith (pre s : string) : bool :=
  match pre, s with
  | EmptyString, _ => true
  | String _ _, EmptyString => false
  | String a pre', String b s' => Ascii.eqb a b && startswith pre' s'
  end.

(** [needle in s] *)
Fixpoint contains (needle s : string) : bool :=
  startswith needle s
  || match s with
     | EmptyString => false
     | String _ s' => contains needle s'
     end.

(** [s.split(sep)] for a separator of one character: never empty, and
    the pieces hold no separator. *)
Fixpoint split (sep : ascii) (s : string) : list string :=
  match s with
  | EmptyString => [EmptyString]
  | String c s' =>
      if Ascii.eqb c sep then EmptyString :: split sep s'
      else match split sep s' with
           | piece :: rest => String c piece :: rest
           | [] => [String c EmptyString]
           end
  end.

(** [l[-1]] on the result of a split. *)
Definition last (l : list string) : string := List.last l EmptyString.

(** [l[i]] where the source has checked the length, or the list is known
    to be long enough. *)
Definition item (i : nat) (l : list string) : string := nth i l EmptyString.

(** The characters [int] drops around a literal, among the 256 an
    ISO-8859-1 string can hold: 9..13 and 32, and the two blanks above 127,
    133 and 160.  (28..31 are blank for [str.isspace], not for [int].) *)
Definition is_space (c : ascii) : bool :=
  let n := Z.of_nat (nat_of_ascii c) in
  ((9 <=? n) && (n <=? 13)) || (n =? 32) || (n =? 133) || (n =? 160).

Definition is_digit (c : ascii) : bool :=
  let n := Z.of_nat (nat_of_ascii c) in (48 <=? n) && (n <=? 57).

Definition digit_value (c : ascii) : Z := Z.of_nat (nat_of_ascii c) - 48.

Fixpoint lstrip (s : string) : string :=
  match s with
  | String c s' => if is_space c then lstrip s' else s
  | EmptyString => EmptyString
  end.

Fixpoint rstrip (s : string) : string :=
  match s with
  | EmptyString => EmptyString
  | String c s' =>
      match rstrip s' with
      | EmptyString => if is_space c then EmptyString else String c EmptyString
      | r => String c r
      end
  end.

(** The digits of a decimal literal: groups of digits separated by single
    underscores; the value, and how many digits were read.
    [after_underscore] is set at the start too, so that an empty literal
    and a leading underscore are refused. *)
Fixpoint int_digits (s : string) (acc : Z) (count : nat) (after_underscore : bool)
  : option (Z * nat) :=
  match s with
  | EmptyString => if after_underscore then None else Some (acc, count)
  | String c s' =>
      if is_digit c then int_digits s' (10 * acc + digit_value c) (S count) false
      else if Ascii.eqb c "_" then
             if after_underscore then None else int_digits s' acc count true
           else None
  end.

(** [sys.int_info.default_max_str_digits]: a literal with more digits is
    refused with [ValueError].  (Interpreters older than the cap accept
    it.) *)
Definition max_str_digits : nat := 4300.

Definition int_literal (d : string) : option Z :=
  match int_digits d 0 0 true with
  | Some (v, count) => if (count <=? max_str_digits)%nat then Some v else None
  | None => None
  end.

(** [int(s)]: [None] stands for [ValueError].  Blanks around the literal
    are dropped, one sign is allowed. *)
Definition int (s : string) : option Z :=
  match rstrip (lstrip s) with
  | String "+" d => int_literal d
  | String "-" d => option_map Z.opp (int_literal d)
  | d => int_literal d
  end.

End PyStr.

(* ================================================================= *)
(** ** Python values and insertion-ordered dicts *)

Inductive pyval : Type :=
| PNone
| PBool (b : bool)
| PInt (n : Z)
| PFloat (repr : string)
| PStr (s : string)
| PList (l : list pyval)
| PDict (d : list (string * pyval)).

(** A dict keeps its keys in insertion order; [list(d.values())] and
    [json.dumps] observe it. *)
Definition dict (V : Type) : Type := list (string * V).

Section Dict.
Context {V : Type}.

(** [d.get(k)] *)
Fixpoint dict_get (k : string) (d : dict V) : option V :=
  match d with
  | [] => None
  | (k', v) :: d' => if String.eqb k k' then Some v else dict_get k d'
  end.

(** [k in d] *)
Definition dict_mem (k : string) (d : dict V) : bool :=
  match dict_get k d with Some _ => true | None => false end.

(** [d[k] = v]: an existing key keeps its place, a new one goes last. *)
Fixpoint dict_set (k : string) (v : V) (d : dict V) : dict V :=
  match d with
  | [] => [(k, v)]
  | (k', v') :: d' =>
      if String.eqb k k' then (k, v) :: d' else (k', v') :: dict_set k v d'
  end.

(** [del d[k]] *)
Fixpoint dict_del (k : string) (d : dict V) : dict V :=
  match d with
  | [] => []
  | (k', v') :: d' =>
      if String.eqb k k' then dict_del k d' else (k', v') :: dict_del k d'
  end.

(** [list(d.values())] *)
Definition dict_values (d : dict V) : list V := map snd d.

End Dict.

(** What a call that may raise gives back: a value, or the exception, kept
    as the text [str(e)] the handlers report. *)
Inductive result (A : Type) : Type :=
| Ok (a : A)
| Raise (msg : string).
Arguments Ok {A} a.
Arguments Raise {A} msg.

Definition type_name (v : pyval) : string :=
  match v with
  | PNone => "NoneType"
  | PBool _ => "bool"
  | PInt _ => "int"
  | PFloat _ => "float"
  | PStr _ => "str"
  | PList _ => "list"
  | PDict _ => "dict"
  end.

(** [data.get(key, default)]: only a dict has the method; anything else
    raises [AttributeError]. *)
Definition py_get (data : pyval) (key : string) (default : pyval) : result pyval :=
  match data with
  | PDict d => Ok (match dict_get key d with Some v => v | None => default end)
  | other => Raise ("'" ++ type_name other ++ "' object has no attribute 'get'")
  end.

(** [v == s] for a str literal [s]. *)
Definition py_eq_str (v : pyval) (s : string) : bool :=
  match v with
  | PStr t => String.eqb t s
  | _ => false
  end.

(** The library functions the handlers call and this development does not
    define.  A decoded str is a [string] as well, in whatever encoding the
    runtime keeps it: the handlers only split it at ASCII characters and
    compare it with ASCII literals. *)
Class Runtime : Type := {
  (** [b.decode('utf-8')], raising [UnicodeDecodeError] *)
  decode_utf8 : string -> result string;
  (** [json.loads(s)], raising [JSONDecodeError] (or [RecursionError]) *)
  json_loads : string -> result pyval;
  (** [s.title()] *)
  str_title : string -> string;
  (** The text of the empty JSON object decodes and loads as the empty
      dict: what line 240 of the mock server relies on when a request
      declares no body. *)
  decode_empty_object : decode_utf8 "{}" = Ok "{}";
  loads_empty_object : json_loads "{}" = Ok (PDict [])
}.

(* ================================================================= *)
(** ** Requests and responses *)

Record response : Type := {
  status : Z;
  headers : list (string * string);
  body : option pyval
}.

(** [send_response(code)], the JSON content type, [end_headers()] and one
    [wfile.write(json.dumps(v).encode())]. *)
Definition json_response (code : Z) (v : pyval) : response :=
  {| status := code;
     headers := [("Content-type", "application/json")];
     body := Some v |}.

(** The JSON object a response carries, read by key. *)
Definition field (k : string) (r : response) : option pyval :=
  match body r with
  | Some (PDict d) => dict_get k d
  | _ => None
  end.


Definition error_body (msg : string) : pyval := PDict [("error", PStr msg)].
Definition status_body (s : string) : pyval := PDict [("status", PStr s)].

(** The input side of the connection: the bytes that have not been read
    yet, and whether the peer ends the stream after them. *)
Record stream : Type := {
  pending : string;
  at_eof : bool
}.

Fixpoint take (n : nat) (s : string) : string :=
  match n, s with
  | S n', String c s' => String c (take n' s')
  | _, _ => EmptyString
  end.

Fixpoint drop (n : nat) (s : string) : string :=
  match n, s with
  | S n', String _ s' => drop n' s'
  | _, _ => s
  end.

(** [rfile.read(n)] for [n > 0]: the next [n] bytes; fewer when the stream
    ends before; [None] when the peer neither sends [n] bytes nor closes,
    and the read never returns. *)
Definition read (rfile : stream) (n : Z) : option (string * stream) :=
  let k := Z.to_nat n in
  if (k <=? String.length (pending rfile))%nat then
    Some (take k (pending rfile),
          {| pending := drop k (pending rfile); at_eof := at_eof rfile |})
  else if at_eof rfile then
    Some (pending rfile, {| pending := EmptyString; at_eof := true |})
  else None.

Record request : Type := {
  path : string;
  (** [self.headers.get('Content-Length')] *)
  content_length_header : option string;
  rfile : stream
}.

(* ================================================================= *)
(** ** Outbound requests *)

(** What [urlopen] gives a handler: a response object, of which only the
    status is read, or an exception ([URLError], [HTTPError], a timeout),
    kept as [str(e)]. *)
Inductive probe : Type :=
| Answered (status : Z)
| Failed (msg : string).

(** A handler that may call [urlopen] before it answers. *)
Inductive prog (A : Type) : Type :=
| Done (a : A)
| Urlopen (url : string) (timeout : Z) (k : probe -> prog A).
Arguments Done {A} a.
Arguments Urlopen {A} url timeout k.

(** The handler run against a network that answers each call. *)
Fixpoint run {A : Type} (net : string -> Z -> probe) (p : prog A) : A :=
  match p with
  | Done a => a
  | Urlopen url timeout k => run net (k (net url timeout))
  end.

(** The calls made on the way, in order. *)
Fixpoint probes {A : Type} (net : string -> Z -> probe) (p : prog A) : list (string * Z) :=
  match p with
  | Done _ => []
  | Urlopen url timeout k => (url, timeout) :: probes net (k (net url timeout))
  end.

(* ================================================================= *)
(** ** docker/mock-hydra-server.py *)

Module MockHydra.
Import PyStr.

Record project : Type := {
  name : string;
  displayname : pyval;
  enabled : pyval
}.

(** The dict stored for a project, as [json.dumps] sees it. *)
Definition project_json (p : project) : pyval :=
  PDict [("name", PStr (name p));
         ("displayname", displayname p);
         ("enabled", enabled p)].

Definition storage : Type := dict project.

(** The mapping the module starts with. *)
Definition projects_storage : storage :=
  [("nixpkgs", {| name := "nixpkgs"; displayname := PStr "Nixpkgs"; enabled := PBool true |});
   ("hydra", {| name := "hydra"; displayname := PStr "Hydra"; enabled := PBool true |})].

Definition not_found : response := json_response 404 (error_body "not found").
Definition invalid_build_id : response := json_response 400 (error_body "invalid build id").

Definition jobset_record : pyval :=
  PDict [("name", PStr "trunk"); ("project", PStr "nixpkgs"); ("enabled", PInt 1)].

Definition build_record (id : Z) (nixname : string) (finished : bool) (buildstatus : pyval)
  : pyval :=
  PDict [("id", PInt id); ("nixname", PStr nixname); ("finished", PBool finished);
         ("buildstatus", buildstatus); ("job", PStr "hello");
         ("project", PStr "nixpkgs"); ("jobset", PStr "trunk")].

Definition constituents : pyval :=
  PList [PDict [("id", PInt 123457); ("nixname", PStr "dependency-1")];
         PDict [("id", PInt 123458); ("nixname", PStr "dependency-2")]].

Definition search_results : pyval :=
  PDict [("builds",
          PList [PDict [("id", PInt 123456); ("nixname", PStr "hello-2.12.1");
                        ("job", PStr "hello"); ("project", PStr "nixpkgs");
                        ("jobset", PStr "trunk")]]);
         ("projects",
          PList [PDict [("name", PStr "nixpkgs"); ("displayname", PStr "Nixpkgs");
                        ("enabled", PBool true)]])].

(** [MockHydraHandler.do_GET]: the chain of [if]/[elif] on [self.path], in
    the order of the source. *)
Definition do_GET (store : storage) (path : string) : response :=
  if String.eqb path "/" && negb (contains "api" path) then
    json_response 200 (PList (map project_json (dict_values store)))
  else if startswith "/api/v1/projects" path then
    json_response 200 (PList (map project_json (dict_values store)))
  else if startswith "/project/" path then
    let project_name := last (split "/" path) in
    match dict_get project_name store with
    | Some project => json_response 200 (project_json project)
    | None =>
        if String.eqb project_name "definitely-does-not-exist" then not_found
        else not_found
    end
  else if startswith "/api/jobsets" path then
    json_response 200 (PList [jobset_record])
  else if startswith "/jobset/" path then
    let parts := split "/" path in
    if (4 <=? List.length parts)%nat
       && String.eqb (item 2 parts) "nixpkgs" && String.eqb (item 3 parts) "trunk"
    then json_response 200 jobset_record
    else not_found
  else if startswith "/build/" path then
    let build_id := last (split "/" path) in
    match int build_id with
    | Some build_id_int =>
        if build_id_int =? 123456 then
          json_response 200 (build_record 123456 "hello-2.12.1" true (PInt 0))
        else if build_id_int =? 123459 then
          json_response 200 (build_record 123459 "hello-in-progress" false PNone)
        else if build_id_int =? 123460 then
          json_response 200 (build_record 123460 "hello-failed" true (PInt 1))
        else not_found
    | None => invalid_build_id
    end
  else if contains "/constituents" path then
    let path_parts := split "/" path in
    if (3 <=? List.length path_parts)%nat && String.eqb (item 1 path_parts) "build" then
      let build_id := item 2 path_parts in
      match int build_id with
      | Some build_id_int =>
          if existsb (Z.eqb build_id_int) [123456; 123459; 123460] then
            json_response 200 constituents
          else not_found
      | None => invalid_build_id
      end
    else not_found
  else if startswith "/api/search" path || startswith "/search" path then
    json_response 200 search_results
  else json_response 200 (status_body "ok").

(** How a handler that reads the request body ends. *)
Inductive outcome : Type :=
| Responded (store : storage) (r : response)
    (** the handler wrote [r] and returned *)
| Crashed (store : storage) (exn : string)
    (** an exception of that class left the handler: no response is written *)
| Blocked (store : storage)
    (** a read never returns: no response is written *).

(** The mapping after the handler. *)
Definition storage_after (o : outcome) : storage :=
  match o with
  | Responded store _ | Crashed store _ | Blocked store => store
  end.

Section Handlers.
Context {RT : Runtime}.

(** Lines 192-199 of [do_POST]: the loop over [data_str.split('&')]. *)
Definition form_credentials (data_str : string) : pyval * pyval :=
  fold_left
    (fun (acc : pyval * pyval) (param : string) =>
       let (username, password) := acc in
       if startswith "username=" param then (PStr (item 1 (split "=" param)), password)
       else if startswith "password=" param then (username, PStr (item 1 (split "=" param)))
       else (username, password))
    (split "&" data_str) (PNone, PNone).

(** Lines 190-205: the pair [(username, password)] the login branch gets
    from a non-empty body, or the exception raised on the way. *)
Definition credentials (post_data : string) : result (pyval * pyval) :=
  if contains "username=" post_data then
    match decode_utf8 post_data with
    | Ok data_str => Ok (form_credentials data_str)
    | Raise msg => Raise msg
    end
  else
    match decode_utf8 post_data with
    | Ok text =>
        match json_loads text with
        | Ok data =>
            match py_get data "username" PNone with
            | Ok username =>
                match py_get data "password" PNone with
                | Ok password => Ok (username, password)
                | Raise msg => Raise msg
                end
            | Raise msg => Raise msg
            end
        | Raise msg => Raise msg
        end
    | Raise msg => Raise msg
    end.

Definition session_cookie : string * string :=
  ("Set-Cookie", "hydra_session=mock_session_token; Path=/; HttpOnly").

Definition admin_user : pyval :=
  PDict [("username", PStr "admin"); ("fullname", PStr "Admin");
         ("emailaddress", PStr "admin@example.com");
         ("roles", PList [PStr "admin"])].

(** Lines 187-234: the [/login] branch, on the body read at line 183. *)
Definition login (post_data : string) : response :=
  match post_data with
  | EmptyString => json_response 400 (error_body "missing credentials")
  | _ =>
      match credentials post_data with
      | Ok (username, password) =>
          if py_eq_str username "admin" && py_eq_str password "admin" then
            {| status := 200;
               headers := [("Content-type", "application/json"); session_cookie];
               body := Some admin_user |}
          else json_response 401 (error_body "unauthorized")
      | Raise msg => json_response 500 (error_body msg)
      end
  end.

(** The record lines 248 and 250 fall back to. *)
Definition default_project_data (project_name : string) : pyval :=
  PDict [("name", PStr project_name);
         ("displayname", PStr (str_title project_name));
         ("enabled", PBool true)].

(** Lines 243-250: [json.loads(post_data.decode('utf-8'))] under a bare
    [except], and the fallback for an empty [post_data]. *)
Definition parse_project_data (project_name post_data : string) : pyval :=
  match post_data with
  | EmptyString => default_project_data project_name
  | _ =>
      match decode_utf8 post_data with
      | Ok text =>
          match json_loads text with
          | Ok project_data => project_data
          | Raise _ => default_project_data project_name
          end
      | Raise _ => default_project_data project_name
      end
  end.

(** Lines 236-267: the [/project/] branch.  [content_length] is the header
    as line 182 parsed it (line 239 parses the same header again), and
    [rfile] is the stream as the read of line 183 left it: line 240 reads
    from there. *)
Definition create_project (store : storage) (path : string)
    (content_length : Z) (rfile : stream) : outcome :=
  let project_name := last (split "/" path) in
  match (if 0 <? content_length then read rfile content_length
         else Some ("{}", rfile)) with
  | None => Blocked store
  | Some (post_data, _) =>
      let project_data := parse_project_data project_name post_data in
      match py_get project_data "displayname" (PStr (str_title project_name)) with
      | Raise msg => Responded store (json_response 500 (error_body msg))
      | Ok dn =>
          match py_get project_data "enabled" (PBool true) with
          | Raise msg => Responded store (json_response 500 (error_body msg))
          | Ok en =>
              let store' :=
                dict_set project_name
                  {| name := project_name; displayname := dn; enabled := en |} store in
              match dict_get project_name store' with
              | Some stored => Responded store' (json_response 200 (project_json stored))
              | None =>
                  Responded store' (json_response 500 (error_body ("'" ++ project_name ++ "'")))
              end
          end
      end
  end.

(** [int(self.headers.get('Content-Length', 0))] *)
Definition declared_length (header : option string) : option Z :=
  match header with
  | Some v => int v
  | None => Some 0
  end.

(** Line 183:
    [self.rfile.read(content_length) if content_length > 0 else b''] *)
Definition read_post_data (rfile : stream) (content_length : Z) : option (string * stream) :=
  if 0 <? content_length then read rfile content_length
  else Some (EmptyString, rfile).

(** [MockHydraHandler.do_POST].  Lines 182-183 run for every path: a
    [Content-Length] that [int] refuses raises outside any [try]. *)
Definition do_POST (store : storage) (req : request) : outcome :=
  match declared_length (content_length_header req) with
  | None => Crashed store "ValueError"
  | Some content_length =>
      match read_post_data (rfile req) content_length with
      | None => Blocked store
      | Some (post_data, rfile') =>
          if String.eqb (path req) "/login" then Responded store (login post_data)
          else if startswith "/project/" (path req) then
            create_project store (path req) content_length rfile'
          else Responded store (json_response 200 (status_body "created"))
      end
  end.

End Handlers.

(** [MockHydraHandler.do_PUT] *)
Definition do_PUT (store : storage) (path : string) : storage * response :=
  (store, json_response 200 (status_body "updated")).

(** [MockHydraHandler.do_DELETE] *)
Definition do_DELETE (store : storage) (path : string) : storage * response :=
  if startswith "/project/" path then
    let project_name := last (split "/" path) in
    if dict_mem project_name store then
      (dict_del project_name store, json_response 200 (status_body "deleted"))
    else (store, not_found)
  else (store, json_response 200 (status_body "deleted")).

Inductive method : Type := GET | POST | PUT | DELETE.

(** One request served by [MockHydraHandler]: the method picks the
    handler. *)
Definition handle {RT : Runtime} (m : method) (req : request) (store : storage) : outcome :=
  match m with
  | GET => Responded store (do_GET store (path req))
  | POST => do_POST store req
  | PUT => let (store', r) := do_PUT store (path req) in Responded store' r
  | DELETE => let (store', r) := do_DELETE store (path req) in Responded store' r
  end.

(** The mappings the server can hold: the initial one, and whatever a
    request leaves behind. *)
Inductive reachable {RT : Runtime} : storage -> Prop :=
| reachable_start : reachable projects_storage
| reachable_step (store : storage) (m : method) (req : request) :
    reachable store -> reachable (storage_after (handle m req store)).

(** [HealthHandler.do_GET] of this file, served on port 8080 by
    [start_health_server]. *)
Definition HealthHandler_do_GET (path : string) : prog response :=
  if String.eqb path "/health" then
    Done (json_response 200 (PDict [("status", PStr "healthy"); ("hydra", PStr "running")]))
  else Done {| status := 404; headers := []; body := None |}.

End MockHydra.

(* ================================================================= *)
(** ** docker/health-check.py *)

Module HealthCheck.

Definition healthy : pyval :=
  PDict [("status", PStr "healthy"); ("hydra", PStr "running"); ("port", PInt 3000)].

Definition unhealthy (msg : string) : pyval :=
  PDict [("status", PStr "unhealthy"); ("error", PStr msg)].

(** Lines 12-23: the body of the [try], on what [urlopen] gave. *)
Definition check (r : probe) : result response :=
  match r with
  | Answered status =>
      if status =? 200 then Ok (json_response 200 healthy)
      else Raise "Hydra not responding"
  | Failed msg => Raise msg
  end.

(** [HealthHandler.do_GET] *)
Definition do_GET (path : string) : prog response :=
  if String.eqb path "/health" then
    Urlopen "http://localhost:3000/" 5
      (fun r =>
         match check r with
         | Ok resp => Done resp
         | Raise msg => Done (json_response 503 (unhealthy msg))
         end)
  else Done {| status := 404; headers := []; body := None |}.

End HealthCheck.

(* ================================================================= *)
(** ** A runtime to run the handlers with

    [Sample.runtime] stands in for the Python library on plain input: it
    decodes ASCII bytes, reads JSON made of objects, arrays, strings
    without escapes, integers and the three literals, and title-cases
    ASCII letters.  The theorems below do not depend on it; it serves to
    evaluate the handlers on concrete requests. *)

Module Sample.

Definition code (c : ascii) : Z := Z.of_nat (nat_of_ascii c).

Definition dquote : ascii := ascii_of_nat 34.

(** A JSON string literal: [quoted s] is [s] between double quotes. *)
Definition quoted (s : string) : string :=
  String dquote (s ++ String dquote EmptyString).

Fixpoint all_ascii (s : string) : bool :=
  match s with
  | EmptyString => true
  | String c s' => (code c <? 128) && all_ascii s'
  end.

Definition decode (b : string) : result string :=
  if all_ascii b then Ok b
  else Raise "'utf-8' codec can't decode bytes outside ASCII".

Definition is_upper (c : ascii) : bool := (65 <=? code c) && (code c <=? 90).
Definition is_lower (c : ascii) : bool := (97 <=? code c) && (code c <=? 122).
Definition upper (c : ascii) : ascii :=
  if is_lower c then ascii_of_nat (nat_of_ascii c - 32) else c.
Definition lower (c : ascii) : ascii :=
  if is_upper c then ascii_of_nat (nat_of_ascii c + 32) else c.

Fixpoint title_from (previous_is_cased : bool) (s : string) : string :=
  match s with
  | EmptyString => EmptyString
  | String c s' =>
      String (if previous_is_cased then lower c else upper c)
             (title_from (is_upper c || is_lower c) s')
  end.

Definition title (s : string) : string := title_from false s.

Definition json_space (c : ascii) : bool :=
  (code c =? 32) || (code c =? 9) || (code c =? 10) || (code c =? 13).

Fixpoint skip (s : string) : string :=
  match s with
  | String c s' => if json_space c then skip s' else s
  | EmptyString => EmptyString
  end.

(** The characters of a string literal up to its closing quote, and what
    follows it. *)
Fixpoint string_chars (s : string) : option (string * string) :=
  match s with
  | EmptyString => None
  | String c s' =>
      if Ascii.eqb c dquote then Some (EmptyString, s')
      else if Ascii.eqb c "\" || (code c <? 32) then None
      else match string_chars s' with
           | Some (t, rest) => Some (String c t, rest)
           | None => None
           end
  end.

Fixpoint digits (s : string) (acc : Z) : Z * string :=
  match s with
  | String c s' =>
      if PyStr.is_digit c then digits s' (10 * acc + PyStr.digit_value c) else (acc, s)
  | EmptyString => (acc, EmptyString)
  end.

Definition number (s : string) : option (pyval * string) :=
  match s with
  | String "0" rest => Some (PInt 0, rest)
  | String c _ =>
      if PyStr.is_digit c then let (n, rest) := digits s 0 in Some (PInt n, rest)
      else None
  | EmptyString => None
  end.

(** One JSON value at the head of [s], and the rest.  [fuel] bounds the
    number of values, members and elements read. *)
Fixpoint value (fuel : nat) (s : string) : option (pyval * string) :=
  match fuel with
  | O => None
  | S fuel' =>
      let s := skip s in
      if PyStr.startswith "null" s then Some (PNone, drop 4 s)
      else if PyStr.startswith "true" s then Some (PBool true, drop 4 s)
      else if PyStr.startswith "false" s then Some (PBool false, drop 5 s)
      else match s with
           | String "{" r =>
               match skip r with
               | String "}" rest => Some (PDict [], rest)
               | r' => match members fuel' r' [] with
                       | Some (d, rest) => Some (PDict d, rest)
                       | None => None
                       end
               end
           | String "[" r =>
               match skip r with
               | String "]" rest => Some (PList [], rest)
               | r' => match elements fuel' r' [] with
                       | Some (l, rest) => Some (PList l, rest)
                       | None => None
                       end
               end
           | String "-" r =>
               match number r with
               | Some (PInt n, rest) => Some (PInt (- n), rest)
               | _ => None
               end
           | String c r =>
               if Ascii.eqb c dquote then
                 match string_chars r with
                 | Some (t, rest) => Some (PStr t, rest)
                 | None => None
                 end
               else number s
           | EmptyString => None
           end
  end
with members (fuel : nat) (s : string) (acc : dict pyval) : option (dict pyval * string) :=
  match fuel with
  | O => None
  | S fuel' =>
      match skip s with
      | String c r =>
          if Ascii.eqb c dquote then
            match string_chars r with
            | Some (k, r1) =>
                match skip r1 with
                | String ":" r2 =>
                    match value fuel' r2 with
                    | Some (v, r3) =>
                        match skip r3 with
                        | String "," r4 => members fuel' r4 (dict_set k v acc)
                        | String "}" rest => Some (dict_set k v acc, rest)
                        | _ => None
                        end
                    | None => None
                    end
                | _ => None
                end
            | None => None
            end
          else None
      | EmptyString => None
      end
  end
with elements (fuel : nat) (s : string) (acc : list pyval) : option (list pyval * string) :=
  match fuel with
  | O => None
  | S fuel' =>
      match value fuel' s with
      | Some (v, r) =>
          match skip r with
          | String "," r' => elements fuel' r' (acc ++ [v])%list
          | String "]" rest => Some ((acc ++ [v])%list, rest)
          | _ => None
          end
      | None => None
      end
  end.

Definition loads (s : string) : result pyval :=
  match value (S (String.length s)) s with
  | Some (v, rest) =>
      match skip rest with
      | EmptyString => Ok v
      | _ => Raise "Extra data"
      end
  | None => Raise "Expecting value"
  end.

#[export] Instance runtime : Runtime :=
  {| decode_utf8 := decode; json_loads := loads; str_title := title;
     decode_empty_object := eq_refl; loads_empty_object := eq_refl |}.

End Sample.

(* ================================================================= *)
(** ** Vocabulary of the statements *)

Section Vocabulary.
Import PyStr MockHydra.

(** The key the [/project/] branches of GET, POST and DELETE all use. *)
Definition project_key (path : string) : string := last (split "/" path).

(** The record the [/project/] branch stores on a dict [d] of project
    data. *)
Definition stored_project {RT : Runtime} (project_name : string) (d : dict pyval) : project :=
  {| name := project_name;
     displayname := match dict_get "displayname" d with
                    | Some v => v
                    | None => PStr (str_title project_name)
                    end;
     enabled := match dict_get "enabled" d with
                | Some v => v
                | None => PBool true
                end |}.

(** Every binding of the mapping holds a record named after its key. *)
Definition names_agree (store : storage) : Prop :=
  forall k p, In (k, p) store -> name p = k.

(** Requests and networks the statements are run on. *)

Definition form_login : request :=
  {| path := "/login";
     content_length_header := Some "29";
     rfile := {| pending := "username=admin&password=admin"; at_eof := false |} |}.

Definition mock_up (url : string) (timeout : Z) : probe := Answered 200.
Definition mock_down (url : string) (timeout : Z) : probe := Failed "Connection refused".
Definition mock_empty (url : string) (timeout : Z) : probe := Answered 204.

Definition post_demo : request :=
  {| path := "/project/demo";
     content_length_header := None;
     rfile := {| pending := EmptyString; at_eof := false |} |}.

Definition demo : project :=
  {| name := "demo"; displayname := PStr "Demo"; enabled := PBool true |}.

Definition delete_hydra : request :=
  {| path := "/project/hydra";
     content_length_header := None;
     rfile := {| pending := EmptyString; at_eof := false |} |}.

(** The keys of the mapping are distinct and hold no slash. *)
Definition keys_ok (store : storage) : Prop :=
  NoDup (map fst store)
  /\ Forall (fun k => contains "/" k = false) (map fst store).

(** A request that declares its body in [header], sends it and ends the
    stream. *)
Definition body_request (path : string) (header : option string) (body : string) : request :=
  {| path := path;
     content_length_header := header;
     rfile := {| pending := body; at_eof := true |} |}.

(** The record a POST under [/project/] stores when no project data
    reaches line 245. *)
Definition default_record {RT : Runtime} (project_name : string) : project :=
  {| name := project_name;
     displayname := PStr (str_title project_name);
     enabled := PBool true |}.

End Vocabulary.

(* ================================================================= *)
(** ** Facts about strings and splitting *)

Section StringFacts.
Import PyStr.

Lemma startswith_app (pre s : string) : startswith pre (pre ++ s) = true.
Proof.
  induction pre as [|a pre IH]; simpl; [reflexivity|].
  now rewrite Ascii.eqb_refl.
Qed.

Lemma startswith_inv (pre s : string) :
  startswith pre s = true -> exists rest, s = pre ++ rest.
Proof.
  revert s; induction pre as [|a pre IH]; intros s H; simpl in *.
  - now exists s.
  - destruct s as [|b s]; [discriminate|].
    apply andb_true_iff in H as [Hab Hs].
    apply Ascii.eqb_eq in Hab as ->.
    destruct (IH _ Hs) as [rest ->].
    now exists rest.
Qed.

Lemma split_not_nil (c : ascii) (s : string) : split c s <> [].
Proof.
  destruct s as [|x s]; simpl; [discriminate|].
  destruct (Ascii.eqb x c); [discriminate|].
  destruct (split c s); discriminate.
Qed.

(** Python's [(a + c + b).split(c) == a.split(c) + b.split(c)]. *)
Lemma split_app_sep (c : ascii) (a b : string) :
  split c (a ++ String c b) = (split c a ++ split c b)%list.
Proof.
  induction a as [|x a IH]; simpl.
  - now rewrite Ascii.eqb_refl.
  - rewrite IH.
    destruct (Ascii.eqb x c); [reflexivity|].
    destruct (split c a) as [|p r] eqn:E; [now apply split_not_nil in E|].
    reflexivity.
Qed.

(** A string without the separator is its only piece. *)
Lemma split_no_sep (c : ascii) (s : string) :
  contains (String c EmptyString) s = false -> split c s = [s].
Proof.
  induction s as [|x s IH]; simpl; intros H; [reflexivity|].
  apply orb_false_iff in H as [Hx Hs].
  rewrite andb_true_r, Ascii.eqb_sym in Hx.
  rewrite Hx, (IH Hs).
  reflexivity.
Qed.

Lemma last_app_cons (l : list string) (a : string) (l' : list string) :
  last (l ++ a :: l') = last (a :: l').
Proof.
  unfold last.
  induction l as [|x l IH]; [reflexivity|].
  simpl app.
  change (List.last (x :: l ++ a :: l') EmptyString)
    with (match (l ++ a :: l')%list with
          | [] => x
          | _ :: _ => List.last (l ++ a :: l') EmptyString
          end).
  destruct (l ++ a :: l')%list eqn:E; [now destruct l|].
  exact IH.
Qed.

(** [(a + c + b).split(c)[-1] == b.split(c)[-1]] *)
Lemma last_split_app_sep (c : ascii) (a b : string) :
  last (split c (a ++ String c b)) = last (split c b).
Proof.
  rewrite split_app_sep.
  destruct (split c b) as [|p r] eqn:E; [now apply split_not_nil in E|].
  apply last_app_cons.
Qed.

(** The last piece of a path that ends in a segment without a slash. *)
Lemma last_segment (a seg : string) :
  contains "/" seg = false -> last (split "/" (a ++ String "/" seg)) = seg.
Proof.
  intros H.
  rewrite last_split_app_sep, (split_no_sep _ _ H).
  reflexivity.
Qed.

(** A split with more than one piece comes from a string that has the
    separator after the first piece. *)
Lemma split_cons_inv (c : ascii) (s a b : string) (tl : list string) :
  split c s = a :: b :: tl ->
  exists s', s = a ++ String c s' /\ split c s' = b :: tl.
Proof.
  revert a b tl; induction s as [|x s IH]; simpl; intros a b tl H; [discriminate|].
  destruct (Ascii.eqb_spec x c) as [->|Hx].
  - injection H as <- H. now exists s.
  - destruct (split c s) as [|p [|q r]] eqn:E; try discriminate.
    injection H as <- <- <-.
    destruct (IH _ _ _ eq_refl) as [s' [-> Hs']].
    now exists s'.
Qed.

Lemma split_single_inv (c : ascii) (s a : string) :
  split c s = [a] -> s = a.
Proof.
  revert a; induction s as [|x s IH]; simpl; intros a H.
  - now injection H.
  - destruct (Ascii.eqb x c).
    + injection H as _ H. now apply split_not_nil in H.
    + destruct (split c s) as [|p r] eqn:E; [now apply split_not_nil in E|].
      injection H as <- ->.
      now rewrite (IH _ eq_refl).
Qed.

End StringFacts.

(* ================================================================= *)
(** ** Facts about dicts *)

Section DictFacts.
Context {V : Type}.
Implicit Types (d : dict V) (k : string) (v : V).

Lemma dict_get_set_same d k v : dict_get k (dict_set k v d) = Some v.
Proof.
  induction d as [|[k' v'] d IH]; simpl.
  - now rewrite String.eqb_refl.
  - destruct (String.eqb k k') eqn:E; simpl; rewrite ?String.eqb_refl, ?E; auto.
Qed.

Lemma dict_get_set_other d k k' v :
  k' <> k -> dict_get k' (dict_set k v d) = dict_get k' d.
Proof.
  intros Hk.
  apply String.eqb_neq in Hk.
  induction d as [|[k0 v0] d IH]; simpl.
  - now rewrite Hk.
  - destruct (String.eqb_spec k k0) as [->|Hk0]; simpl.
    + now rewrite Hk.
    + now rewrite IH.
Qed.

Lemma dict_get_del_same d k : dict_get k (dict_del k d) = None.
Proof.
  induction d as [|[k' v'] d IH]; simpl; [reflexivity|].
  destruct (String.eqb k k') eqn:E; simpl; rewrite ?E; auto.
Qed.

Lemma dict_get_del_other d k k' :
  k' <> k -> dict_get k' (dict_del k d) = dict_get k' d.
Proof.
  intros Hk.
  apply String.eqb_neq in Hk.
  induction d as [|[k0 v0] d IH]; simpl; [reflexivity|].
  destruct (String.eqb_spec k k0) as [->|Hk0]; simpl.
  - now rewrite Hk.
  - now rewrite IH.
Qed.

Lemma dict_set_In d k v k' v' :
  In (k', v') (dict_set k v d) -> (k', v') = (k, v) \/ In (k', v') d.
Proof.
  induction d as [|[k0 v0] d IH]; simpl.
  - intros [H|[]]; auto.
  - destruct (String.eqb k k0); simpl; intros [H|H]; auto.
    destruct (IH H); auto.
Qed.

Lemma dict_del_In d k k' v' : In (k', v') (dict_del k d) -> In (k', v') d.
Proof.
  induction d as [|[k0 v0] d IH]; simpl; [auto|].
  destruct (String.eqb k k0); simpl; intuition.
Qed.

Lemma dict_get_In d k v : dict_get k d = Some v -> In (k, v) d.
Proof.
  induction d as [|[k0 v0] d IH]; simpl; [discriminate|].
  destruct (String.eqb_spec k k0) as [->|Hk].
  - intros [= ->]. now left.
  - auto.
Qed.

End DictFacts.

(* ================================================================= *)
(** ** GET on the mock server *)

Section GetFacts.
Import PyStr MockHydra.

(** Under [/build/] the branch of line 66 is the one taken, on the last
    segment of the path. *)
Lemma do_GET_build (store : storage) (rest : string) :
  do_GET store ("/build/" ++ rest) =
  match int (last (split "/" ("/build/" ++ rest))) with
  | Some build_id_int =>
      if build_id_int =? 123456 then
        json_response 200 (build_record 123456 "hello-2.12.1" true (PInt 0))
      else if build_id_int =? 123459 then
        json_response 200 (build_record 123459 "hello-in-progress" false PNone)
      else if build_id_int =? 123460 then
        json_response 200 (build_record 123460 "hello-failed" true (PInt 1))
      else not_found
  | None => invalid_build_id
  end.
Proof. reflexivity. Qed.

(** C1 (the code departs from the claim): a GET of
    [/build/{id}/constituents] never reaches the constituents branch.  The
    [/build/] branch comes first in the chain, takes the last segment,
    the word constituents, for the build id, and answers 400, whatever
    [{id}] is. *)
Theorem constituents_shadowed (store : storage) (id : string) :
  do_GET store ("/build/" ++ id ++ "/constituents") = invalid_build_id
  /\ status (do_GET store ("/build/" ++ id ++ "/constituents")) = 400.
Proof.
  assert (E : do_GET store ("/build/" ++ id ++ "/constituents") = invalid_build_id).
  { rewrite do_GET_build.
    change ("/build/" ++ id ++ "/constituents")
      with (("/build/" ++ id) ++ String "/" "constituents").
    now rewrite last_split_app_sep. }
  split; [exact E | now rewrite E].
Qed.

(** C2: a GET of [/build/{id}], for a segment [{id}]: 400 and the
    invalid-build-id error when [int] refuses [{id}]; the three known builds
    with their [finished] and [buildstatus]; 404 for any other integer. *)
Theorem get_build (store : storage) (id : string) :
  contains "/" id = false ->
  (int id = None ->
   do_GET store ("/build/" ++ id) = json_response 400 (error_body "invalid build id"))
  /\ (int id = Some 123456 ->
      status (do_GET store ("/build/" ++ id)) = 200
      /\ field "finished" (do_GET store ("/build/" ++ id)) = Some (PBool true)
      /\ field "buildstatus" (do_GET store ("/build/" ++ id)) = Some (PInt 0))
  /\ (int id = Some 123459 ->
      status (do_GET store ("/build/" ++ id)) = 200
      /\ field "finished" (do_GET store ("/build/" ++ id)) = Some (PBool false)
      /\ field "buildstatus" (do_GET store ("/build/" ++ id)) = Some PNone)
  /\ (int id = Some 123460 ->
      status (do_GET store ("/build/" ++ id)) = 200
      /\ field "finished" (do_GET store ("/build/" ++ id)) = Some (PBool true)
      /\ field "buildstatus" (do_GET store ("/build/" ++ id)) = Some (PInt 1))
  /\ (forall n, int id = Some n -> n <> 123456 -> n <> 123459 -> n <> 123460 ->
      status (do_GET store ("/build/" ++ id)) = 404).
Proof.
  intros Hid.
  rewrite do_GET_build.
  change ("/build/" ++ id) with ("/build" ++ String "/" id).
  rewrite (last_segment _ _ Hid).
  split; [|split; [|split; [|split]]].
  1-4: intros ->; repeat split; reflexivity.
  intros n -> H1 H2 H3.
  apply Z.eqb_neq in H1, H2, H3.
  now rewrite H1, H2, H3.
Qed.

Lemma get_build_witness :
  status (do_GET projects_storage "/build/123459") = 200
  /\ field "buildstatus" (do_GET projects_storage "/build/123459") = Some PNone
  /\ status (do_GET projects_storage "/build/abc") = 400
  /\ status (do_GET projects_storage "/build/7") = 404.
Proof.
  destruct (get_build projects_storage "123459" eq_refl) as (_ & _ & H & _).
  destruct (H eq_refl) as (H1 & _ & H2).
  destruct (get_build projects_storage "abc" eq_refl) as (Ha & _).
  destruct (get_build projects_storage "7" eq_refl) as (_ & _ & _ & _ & Hn).
  refine (conj H1 (conj H2 (conj (f_equal status (Ha eq_refl)) _))).
  apply (Hn 7); [reflexivity | discriminate ..].
Defined.

(** Under [/jobset/] the branch of line 53 is the one taken; the pieces
    at index 2 and 3 of the path are the first two of what follows
    [/jobset/]. *)
Lemma do_GET_jobset (store : storage) (rest : string) :
  do_GET store ("/jobset/" ++ rest) =
  if (2 <=? List.length (split "/" rest))%nat
     && String.eqb (item 0 (split "/" rest)) "nixpkgs"
     && String.eqb (item 1 (split "/" rest)) "trunk"
  then json_response 200 jobset_record
  else not_found.
Proof. reflexivity. Qed.

(** The test of line 55 holds exactly of [nixpkgs/trunk] and of what
    goes on with a slash after it. *)
Lemma trunk_parts (rest : string) :
  (2 <=? List.length (split "/" rest))%nat
  && String.eqb (item 0 (split "/" rest)) "nixpkgs"
  && String.eqb (item 1 (split "/" rest)) "trunk"
  = String.eqb rest "nixpkgs/trunk" || startswith "nixpkgs/trunk/" rest.
Proof.
  apply eq_true_iff_eq.
  rewrite !andb_true_iff, orb_true_iff, !String.eqb_eq.
  split.
  - intros [[Hlen Ha] Hb].
    destruct (split "/" rest) as [|a [|b tl]] eqn:E; try discriminate.
    unfold item in Ha, Hb; simpl in Ha, Hb; subst a b.
    destruct (split_cons_inv _ _ _ _ _ E) as [s' [-> Hs']].
    destruct tl as [|c tl].
    + left. now rewrite (split_single_inv _ _ _ Hs').
    + right. destruct (split_cons_inv _ _ _ _ _ Hs') as [s'' [-> _]].
      apply (startswith_app "nixpkgs/trunk/").
  - intros [->|H].
    + now cbn.
    + destruct (startswith_inv _ _ H) as [r ->].
      cbn [append split Ascii.eqb Bool.eqb].
      destruct (split "/" r) as [|p q] eqn:E; [now apply split_not_nil in E|].
      now cbn.
Qed.

(** C7, as the code has it: under [/jobset/], a GET answers 200 with the
    fixed jobset record exactly when the path is [/jobset/nixpkgs/trunk]
    or goes on from it with a slash; any other path under [/jobset/] gets
    404. *)
Theorem get_jobset (store : storage) (path : string) :
  startswith "/jobset/" path = true ->
  do_GET store path =
  if String.eqb path "/jobset/nixpkgs/trunk" || startswith "/jobset/nixpkgs/trunk/" path
  then json_response 200
         (PDict [("name", PStr "trunk"); ("project", PStr "nixpkgs"); ("enabled", PInt 1)])
  else json_response 404 (error_body "not found").
Proof.
  intros H.
  destruct (startswith_inv _ _ H) as [rest ->].
  rewrite do_GET_jobset, trunk_parts.
  reflexivity.
Qed.

Lemma get_jobset_witness :
  status (do_GET projects_storage "/jobset/nixpkgs/trunk") = 200
  /\ status (do_GET projects_storage "/jobset/nixpkgs/trunk/evals") = 200
  /\ status (do_GET projects_storage "/jobset/nixpkgs/trunk?x=1") = 404
  /\ status (do_GET projects_storage "/jobset/hydra/master") = 404.
Proof.
  refine (conj (f_equal status (get_jobset projects_storage "/jobset/nixpkgs/trunk" eq_refl))
         (conj (f_equal status (get_jobset projects_storage "/jobset/nixpkgs/trunk/evals" eq_refl))
         (conj (f_equal status (get_jobset projects_storage "/jobset/nixpkgs/trunk?x=1" eq_refl))
               (f_equal status (get_jobset projects_storage "/jobset/hydra/master" eq_refl))))).
Defined.

(** C7 as the claim words it fails: [/jobset/nixpkgs/trunk/evals] is
    another path under [/jobset/], and it is answered 200. *)
Lemma jobset_other_path_found :
  ~ (forall (store : storage) (path : string),
        startswith "/jobset/" path = true ->
        path <> "/jobset/nixpkgs/trunk" ->
        status (do_GET store path) = 404).
Proof.
  intros H.
  specialize (H projects_storage "/jobset/nixpkgs/trunk/evals" eq_refl).
  discriminate H.
  discriminate.
Qed.

End GetFacts.

(* ================================================================= *)
(** ** The project mapping *)

Section ProjectFacts.
Import PyStr MockHydra.

Lemma project_key_segment (name : string) :
  contains "/" name = false -> project_key ("/project/" ++ name) = name.
Proof.
  intros H.
  unfold project_key.
  change ("/project/" ++ name) with ("/project" ++ String "/" name).
  now apply last_segment.
Qed.

(** Under [/project/] the branch of line 29 is the one taken. *)
Lemma do_GET_project (store : storage) (rest : string) :
  do_GET store ("/project/" ++ rest) =
  match dict_get (project_key ("/project/" ++ rest)) store with
  | Some project => json_response 200 (project_json project)
  | None => not_found
  end.
Proof.
  unfold do_GET, project_key.
  cbn [append startswith String.eqb Ascii.eqb Bool.eqb andb orb negb].
  destruct (dict_get _ store); [reflexivity|].
  now destruct (String.eqb _ "definitely-does-not-exist").
Qed.

Lemma do_DELETE_project (store : storage) (rest : string) :
  do_DELETE store ("/project/" ++ rest) =
  if dict_mem (project_key ("/project/" ++ rest)) store then
    (dict_del (project_key ("/project/" ++ rest)) store,
     json_response 200 (status_body "deleted"))
  else (store, not_found).
Proof. reflexivity. Qed.

(** C6: DELETE of [/project/{name}] removes the entry and answers 200 with
    the deleted status when the name is in the mapping, answers 404 and
    leaves the mapping alone when it is not; the GET of the same path that
    follows answers 404 either way. *)
Theorem delete_then_get (store : storage) (name : string) :
  contains "/" name = false ->
  (dict_mem name store = true ->
   do_DELETE store ("/project/" ++ name)
   = (dict_del name store, json_response 200 (PDict [("status", PStr "deleted")]))
   /\ dict_get name (dict_del name store) = None)
  /\ (dict_mem name store = false ->
      do_DELETE store ("/project/" ++ name) = (store, not_found)
      /\ status (snd (do_DELETE store ("/project/" ++ name))) = 404)
  /\ do_GET (fst (do_DELETE store ("/project/" ++ name))) ("/project/" ++ name)
     = json_response 404 (error_body "not found").
Proof.
  intros Hname.
  rewrite do_DELETE_project, do_GET_project, (project_key_segment _ Hname).
  split; [|split].
  - intros ->. split; [reflexivity | apply dict_get_del_same].
  - intros ->. now split.
  - destruct (dict_mem name store) eqn:E; cbn [fst].
    + now rewrite dict_get_del_same.
    + unfold dict_mem in E. now destruct (dict_get name store).
Qed.

Lemma delete_then_get_witness :
  do_DELETE projects_storage "/project/hydra"
  = ([("nixpkgs", {| name := "nixpkgs"; displayname := PStr "Nixpkgs"; enabled := PBool true |})],
     json_response 200 (PDict [("status", PStr "deleted")]))
  /\ status (snd (do_DELETE projects_storage "/project/bogus")) = 404
  /\ status (do_GET (fst (do_DELETE projects_storage "/project/hydra")) "/project/hydra") = 404.
Proof.
  destruct (delete_then_get projects_storage "hydra" eq_refl) as (Hin & _ & Hget).
  destruct (delete_then_get projects_storage "bogus" eq_refl) as (_ & Hout & _).
  exact (conj (proj1 (Hin eq_refl))
           (conj (proj2 (Hout eq_refl)) (f_equal status Hget))).
Defined.

End ProjectFacts.

(* ================================================================= *)
(** ** POST on the mock server *)

Section PostFacts.
Import PyStr MockHydra.
Context {RT : Runtime}.

(** The [/project/] branch ends in one of three ways: the read of line 240
    never returns; the project data is no dict and the answer is 500; or a
    record named after the last segment is stored under it and sent back
    with 200.  The mapping changes in the last case only. *)
Lemma create_project_cases (store : storage) (path : string) (n : Z) (rf : stream) :
  create_project store path n rf = Blocked store
  \/ (exists msg, create_project store path n rf
                  = Responded store (json_response 500 (error_body msg)))
  \/ (exists d, create_project store path n rf
                = Responded (dict_set (project_key path) (stored_project (project_key path) d) store)
                    (json_response 200 (project_json (stored_project (project_key path) d)))).
Proof.
  unfold create_project, project_key.
  destruct (if 0 <? n then read rf n else Some ("{}", rf)) as [[post_data rf']|];
    [|now left].
  right.
  destruct (parse_project_data _ post_data) as [| | | | | |d];
    try (left; eexists; reflexivity).
  right. exists d.
  cbn [py_get].
  now rewrite dict_get_set_same.
Qed.

(** Outside [/project/] a POST leaves the mapping as it was. *)
Lemma do_POST_cases (store : storage) (req : request) :
  storage_after (do_POST store req) = store
  \/ (startswith "/project/" (path req) = true
      /\ exists n rf, do_POST store req = create_project store (path req) n rf).
Proof.
  unfold do_POST.
  destruct (declared_length _) as [n|]; [|now left].
  destruct (read_post_data _ n) as [[post_data rf]|]; [|now left].
  destruct (String.eqb (path req) "/login"); [now left|].
  destruct (startswith "/project/" (path req)) eqn:E; [|now left].
  right. split; [reflexivity|]. now exists n, rf.
Qed.

(** X16: whenever a POST under [/project/] is answered 200, on any
    request and any stream, the answer carries the record now stored
    under the key of the path, and a GET of the same path carries it
    too. *)
Lemma post_ok_then_get (store store' : storage) (req : request) (r : response) :
  startswith "/project/" (path req) = true ->
  do_POST store req = Responded store' r ->
  status r = 200 ->
  exists stored,
    dict_get (project_key (path req)) store' = Some stored
    /\ r = json_response 200 (project_json stored)
    /\ do_GET store' (path req) = r.
Proof.
  intros Hpath Hpost Hok.
  unfold do_POST in Hpost.
  destruct (declared_length _) as [n|]; [|discriminate].
  destruct (read_post_data _ n) as [[post_data rf]|]; [|discriminate].
  destruct (String.eqb_spec (path req) "/login") as [Hlogin|_].
  { rewrite Hlogin in Hpath. discriminate. }
  rewrite Hpath in Hpost.
  destruct (create_project_cases store (path req) n rf) as [B|[[msg B]|[d B]]];
    rewrite B in Hpost; try discriminate.
  - injection Hpost as _ <-. discriminate.
  - injection Hpost as <- <-.
    exists (stored_project (project_key (path req)) d).
    rewrite dict_get_set_same.
    split; [reflexivity|]. split; [reflexivity|].
    destruct (startswith_inv _ _ Hpath) as [rest ->].
    now rewrite do_GET_project, dict_get_set_same.
Qed.

Lemma take_all (s : string) : take (String.length s) s = s.
Proof. induction s as [|c s IH]; simpl; [reflexivity | now rewrite IH]. Qed.

Lemma drop_all (s : string) : drop (String.length s) s = EmptyString.
Proof. induction s as [|c s IH]; simpl; [reflexivity | exact IH]. Qed.

(** A stream that holds exactly the declared body and then ends: the read
    of line 183 takes the body, and the read of line 240 finds the end of
    the stream. *)
Lemma read_whole_body (body : string) :
  body <> EmptyString ->
  read {| pending := body; at_eof := true |} (Z.of_nat (String.length body))
  = Some (body, {| pending := EmptyString; at_eof := true |})
  /\ read {| pending := EmptyString; at_eof := true |} (Z.of_nat (String.length body))
     = Some (EmptyString, {| pending := EmptyString; at_eof := true |}).
Proof.
  intros Hbody.
  unfold read; cbn [pending at_eof].
  rewrite Nat2Z.id, Nat.leb_refl, take_all, drop_all.
  split; [reflexivity|].
  destruct body as [|c body]; [contradiction | reflexivity].
Qed.

(** A request that carries a body and nothing after it: POST under
    [/project/] stores the default record, whatever the body says, since
    the body is consumed by the read of line 183 and line 240 reads
    again. *)
Lemma post_project_default (store : storage) (name body : string) (h : option string) :
  declared_length h = Some (Z.of_nat (String.length body)) ->
  do_POST store {| path := "/project/" ++ name;
                   content_length_header := h;
                   rfile := {| pending := body; at_eof := true |} |}
  = Responded
      (dict_set (project_key ("/project/" ++ name))
                (stored_project (project_key ("/project/" ++ name)) []) store)
      (json_response 200 (project_json (stored_project (project_key ("/project/" ++ name)) []))).
Proof.
  intros Hlen.
  unfold do_POST; cbn [path content_length_header rfile].
  rewrite Hlen.
  unfold read_post_data, create_project.
  fold (project_key ("/project/" ++ name)).
  destruct body as [|c body].
  - cbn [String.length Z.of_nat Z.ltb Z.compare].
    cbn [append String.eqb Ascii.eqb Bool.eqb startswith andb].
    unfold parse_project_data.
    rewrite decode_empty_object, loads_empty_object.
    cbn [py_get dict_get].
    now rewrite dict_get_set_same.
  - destruct (read_whole_body (String c body)) as [R1 R2]; [discriminate|].
    replace (0 <? Z.of_nat (String.length (String c body))) with true
      by (symmetry; apply Z.ltb_lt; cbn [String.length]; lia).
    rewrite R1.
    cbn [append String.eqb Ascii.eqb Bool.eqb startswith andb].
    rewrite R2.
    cbn [parse_project_data default_project_data py_get dict_get String.eqb Ascii.eqb Bool.eqb].
    now rewrite dict_get_set_same.
Qed.

(** When the stream ends after the declared body, a POST of
    [/project/{name}] and a GET of the same path agree: the POST is
    answered 200 with the record it stored, and the GET is answered 200
    with that same record. *)
Theorem create_then_read (store : storage) (name body : string) (h : option string) :
  declared_length h = Some (Z.of_nat (String.length body)) ->
  exists (store' : storage) (stored : project),
    do_POST store {| path := "/project/" ++ name;
                     content_length_header := h;
                     rfile := {| pending := body; at_eof := true |} |}
    = Responded store' (json_response 200 (project_json stored))
    /\ dict_get (project_key ("/project/" ++ name)) store' = Some stored
    /\ do_GET store' ("/project/" ++ name) = json_response 200 (project_json stored).
Proof.
  intros Hlen.
  exists (dict_set (project_key ("/project/" ++ name))
                   (stored_project (project_key ("/project/" ++ name)) []) store),
         (stored_project (project_key ("/project/" ++ name)) []).
  split; [now apply post_project_default|].
  rewrite do_GET_project, dict_get_set_same.
  now split.
Qed.

(** C5 (the code departs from the claim): a client that sends a body
    with its POST of [/project/{name}] and keeps the connection open
    for the answer gets none.  The body is taken by the read of line 183;
    line 240 reads [content_length] bytes again and waits for bytes that
    do not come.  Nothing is stored, and a GET of the same path, for a
    name that was not in the mapping, is answered 404. *)
Theorem create_never_answered (store : storage) (name body : string) (h : option string) :
  body <> EmptyString ->
  declared_length h = Some (Z.of_nat (String.length body)) ->
  do_POST store {| path := "/project/" ++ name;
                   content_length_header := h;
                   rfile := {| pending := body; at_eof := false |} |}
  = Blocked store
  /\ (dict_get (project_key ("/project/" ++ name)) store = None ->
      do_GET
        (storage_after
           (do_POST store {| path := "/project/" ++ name;
                             content_length_header := h;
                             rfile := {| pending := body; at_eof := false |} |}))
        ("/project/" ++ name)
      = json_response 404 (error_body "not found")).
Proof.
  intros Hbody Hlen.
  assert (Hblocked :
            do_POST store {| path := "/project/" ++ name;
                             content_length_header := h;
                             rfile := {| pending := body; at_eof := false |} |}
            = Blocked store).
  { unfold do_POST; cbn [path content_length_header rfile].
    rewrite Hlen.
    assert (Hpos : (0 <? Z.of_nat (String.length body)) = true).
    { apply Z.ltb_lt. destruct body; [contradiction | cbn [String.length]; lia]. }
    unfold read_post_data, create_project, read; cbn [pending at_eof].
    rewrite Hpos, Nat2Z.id, Nat.leb_refl, drop_all.
    cbn [append String.eqb Ascii.eqb Bool.eqb startswith andb].
    cbn [pending at_eof String.length].
    destruct body as [|c body]; [contradiction | reflexivity]. }
  split; [exact Hblocked|].
  intros Habsent.
  rewrite Hblocked. cbn [storage_after].
  now rewrite do_GET_project, Habsent.
Qed.

Lemma names_agree_start : names_agree projects_storage.
Proof.
  intros k p [H|[H|[]]]; injection H as <- <-; reflexivity.
Qed.

Lemma names_agree_set (store : storage) (k : string) (p : project) :
  name p = k -> names_agree store -> names_agree (dict_set k p store).
Proof.
  intros Hp Hs k' p' Hin.
  destruct (dict_set_In _ _ _ _ _ Hin) as [E|Hold]; [|now apply Hs].
  now injection E as -> ->.
Qed.

Lemma names_agree_del (store : storage) (k : string) :
  names_agree store -> names_agree (dict_del k store).
Proof.
  intros Hs k' p' Hin. apply Hs. now apply dict_del_In in Hin.
Qed.

Lemma do_POST_names_agree (store : storage) (req : request) :
  names_agree store -> names_agree (storage_after (do_POST store req)).
Proof.
  intros Hs.
  destruct (do_POST_cases store req) as [->|[_ (n & rf & ->)]]; [exact Hs|].
  destruct (create_project_cases store (path req) n rf) as [->|[[msg ->]|[d ->]]];
    try exact Hs.
  now apply names_agree_set.
Qed.

Lemma do_DELETE_names_agree (store : storage) (path : string) :
  names_agree store -> names_agree (fst (do_DELETE store path)).
Proof.
  intros Hs. unfold do_DELETE.
  destruct (startswith "/project/" path); [|exact Hs].
  destruct (dict_mem _ store); [|exact Hs].
  now apply names_agree_del.
Qed.

Lemma handle_names_agree (m : method) (req : request) (store : storage) :
  names_agree store -> names_agree (storage_after (handle m req store)).
Proof.
  intros Hs.
  destruct m; cbn [handle].
  - exact Hs.
  - now apply do_POST_names_agree.
  - exact Hs.
  - pose proof (do_DELETE_names_agree store (path req) Hs) as H.
    now destruct (do_DELETE store (path req)).
Qed.

(** C9: in every mapping the server can reach from the two initial
    projects, by requests of any method, path and body, the record found
    under a key is named after that key. *)
Theorem stored_name_is_key (store : storage) :
  reachable store ->
  forall (k : string) (p : project), dict_get k store = Some p -> name p = k.
Proof.
  intros Hreach.
  assert (Hinv : names_agree store).
  { induction Hreach as [|store m req _ IH].
    - exact names_agree_start.
    - now apply handle_names_agree. }
  intros k p Hget.
  apply Hinv.
  now apply dict_get_In.
Qed.

(** C10: POST and DELETE of [/project/{name}] leave every other key of the
    mapping as it was; GET and PUT leave the whole mapping as it was. *)
Theorem requests_frame (store : storage) (name : string) (req : request) :
  contains "/" name = false ->
  path req = "/project/" ++ name ->
  (forall k, k <> name ->
     dict_get k (storage_after (handle POST req store)) = dict_get k store)
  /\ (forall k, k <> name ->
        dict_get k (storage_after (handle DELETE req store)) = dict_get k store)
  /\ (forall any : request, storage_after (handle GET any store) = store)
  /\ (forall any : request, storage_after (handle PUT any store) = store).
Proof.
  intros Hname Hpath.
  pose proof (project_key_segment name Hname) as Hkey.
  rewrite <- Hpath in Hkey.
  split; [|split; [|split]].
  - intros k Hk. cbn [handle].
    destruct (do_POST_cases store req) as [->|[_ (n & rf & ->)]]; [reflexivity|].
    destruct (create_project_cases store (path req) n rf) as [->|[[msg ->]|[d ->]]];
      try reflexivity.
    cbn [storage_after]. rewrite Hkey.
    now apply dict_get_set_other.
  - intros k Hk. cbn [handle].
    rewrite Hpath, do_DELETE_project, <- Hpath, Hkey.
    destruct (dict_mem name store); cbn [storage_after]; [|reflexivity].
    now apply dict_get_del_other.
  - reflexivity.
  - reflexivity.
Qed.

End PostFacts.

(* ================================================================= *)
(** ** Login *)

Section LoginFacts.
Import PyStr MockHydra.
Context {RT : Runtime}.





End LoginFacts.

(* ================================================================= *)
(** ** The two health handlers *)

Section HealthFacts.
Import MockHydra.

(** C4: [health-check.py].  GET of [/health] probes the root of the mock
    server once, with a timeout of 5 seconds: a 200 from the probe gives
    200 and the healthy body with the port; an exception, or any other
    status, gives 503 and the unhealthy body with the message.  Any other
    path gives 404 with no body, and no probe. *)
Theorem health_check_contract (net : string -> Z -> probe) :
  probes net (HealthCheck.do_GET "/health") = [("http://localhost:3000/", 5)]
  /\ (net "http://localhost:3000/" 5 = Answered 200 ->
      run net (HealthCheck.do_GET "/health")
      = json_response 200
          (PDict [("status", PStr "healthy"); ("hydra", PStr "running"); ("port", PInt 3000)]))
  /\ (forall msg, net "http://localhost:3000/" 5 = Failed msg ->
      run net (HealthCheck.do_GET "/health")
      = json_response 503 (PDict [("status", PStr "unhealthy"); ("error", PStr msg)]))
  /\ (forall code, net "http://localhost:3000/" 5 = Answered code -> code <> 200 ->
      run net (HealthCheck.do_GET "/health")
      = json_response 503
          (PDict [("status", PStr "unhealthy"); ("error", PStr "Hydra not responding")]))
  /\ (forall path, path <> "/health" ->
      run net (HealthCheck.do_GET path) = {| status := 404; headers := []; body := None |}
      /\ probes net (HealthCheck.do_GET path) = []).
Proof.
  split; [|split; [|split; [|split]]].
  - cbn. now destruct (HealthCheck.check _).
  - intros H. cbn. now rewrite H.
  - intros msg H. cbn. now rewrite H.
  - intros code H Hcode. cbn. rewrite H. cbn.
    apply Z.eqb_neq in Hcode. now rewrite Hcode.
  - intros path Hpath.
    unfold HealthCheck.do_GET.
    apply String.eqb_neq in Hpath. rewrite Hpath.
    now split.
Qed.

(** C8: the [HealthHandler] inside [mock-hydra-server.py].  GET of
    [/health] is answered 200 with the healthy body at once: the handler
    is a [Done], it calls nothing; no path is answered 503; the body has no
    port. *)
Theorem bundled_health_unconditional :
  HealthHandler_do_GET "/health"
  = Done (json_response 200 (PDict [("status", PStr "healthy"); ("hydra", PStr "running")]))
  /\ (forall (net : string -> Z -> probe) (path : string),
        probes net (HealthHandler_do_GET path) = []
        /\ status (run net (HealthHandler_do_GET path)) <> 503)
  /\ (forall net : string -> Z -> probe,
        field "port" (run net (HealthHandler_do_GET "/health")) = None
        /\ field "status" (run net (HealthHandler_do_GET "/health")) = Some (PStr "healthy")
        /\ field "hydra" (run net (HealthHandler_do_GET "/health")) = Some (PStr "running")).
Proof.
  split; [reflexivity|].
  split.
  - intros net path. unfold HealthHandler_do_GET.
    destruct (String.eqb path "/health"); cbn; split; (reflexivity || discriminate).
  - intros net. now cbn.
Qed.

End HealthFacts.

(* ================================================================= *)
(** ** What shadows the constituents branch, and what the second read does *)

Section Defects.
Import PyStr MockHydra.

(** X15: no request target that begins with a slash is answered with the
    dependency array: the branch of line 125 asks for [build] as the
    second piece of the path, and such a path has been taken by the
    [/build/] branch of line 66. *)
Lemma constituents_never_served (store : storage) (rest : string) :
  do_GET store (String "/" rest) <> json_response 200 constituents.
Proof.
  unfold do_GET.
  destruct (String.eqb (String "/" rest) "/" && negb (contains "api" (String "/" rest))).
  { destruct store as [|[k p] store]; discriminate. }
  destruct (startswith "/api/v1/projects" (String "/" rest)).
  { destruct store as [|[k p] store]; discriminate. }
  destruct (startswith "/project/" (String "/" rest)).
  { destruct (dict_get _ store); [discriminate|].
    destruct (String.eqb _ "definitely-does-not-exist"); discriminate. }
  destruct (startswith "/api/jobsets" (String "/" rest)); [discriminate|].
  destruct (startswith "/jobset/" (String "/" rest)).
  { destruct (_ && _); discriminate. }
  destruct (startswith "/build/" (String "/" rest)) eqn:Hbuild.
  { destruct (int _) as [n|]; [|discriminate].
    destruct (n =? 123456); [discriminate|].
    destruct (n =? 123459); [discriminate|].
    destruct (n =? 123460); discriminate. }
  destruct (contains "/constituents" (String "/" rest)).
  - destruct ((3 <=? List.length (split "/" (String "/" rest)))%nat
              && String.eqb (item 1 (split "/" (String "/" rest))) "build") eqn:Hparts;
      [|discriminate].
    exfalso.
    cbn [split Ascii.eqb Bool.eqb] in Hparts.
    apply andb_true_iff in Hparts as [Hlen Hitem].
    destruct (split "/" rest) as [|a [|b tl]] eqn:E; try discriminate.
    cbn [item nth] in Hitem. apply String.eqb_eq in Hitem. subst a.
    destruct (split_cons_inv _ _ _ _ _ E) as [s' [-> _]].
    discriminate Hbuild.
  - destruct (_ || _); discriminate.
Qed.

(** X6: a client that sends its body and waits for the answer, the
    connection open: the read of line 240 asks for [content_length] more
    bytes and never returns. *)
Lemma post_project_blocks {RT : Runtime} (store : storage) (name body : string)
    (h : option string) :
  body <> EmptyString ->
  declared_length h = Some (Z.of_nat (String.length body)) ->
  do_POST store {| path := "/project/" ++ name;
                   content_length_header := h;
                   rfile := {| pending := body; at_eof := false |} |}
  = Blocked store.
Proof.
  intros Hbody Hlen.
  unfold do_POST; cbn [path content_length_header rfile].
  rewrite Hlen.
  assert (Hpos : (0 <? Z.of_nat (String.length body)) = true).
  { apply Z.ltb_lt. destruct body; [contradiction | cbn [String.length]; lia]. }
  unfold read_post_data, create_project, read; cbn [pending at_eof].
  rewrite Hpos, Nat2Z.id, Nat.leb_refl, drop_all.
  cbn [append String.eqb Ascii.eqb Bool.eqb startswith andb].
  cbn [pending at_eof String.length].
  destruct body as [|c body]; [contradiction | reflexivity].
Qed.

(** Bytes after the declared body are what line 240 parses: a JSON list
    there has no [get], and the answer is 500 with the mapping as it
    was. *)
Lemma post_project_trailing_list :
  do_POST (RT := Sample.runtime) projects_storage
    {| path := "/project/demo";
       content_length_header := Some "3";
       rfile := {| pending := "abc[1]"; at_eof := false |} |}
  = Responded projects_storage
      (json_response 500 (error_body "'list' object has no attribute 'get'")).
Proof. reflexivity. Qed.

End Defects.

(* ================================================================= *)
(** ** Keys of the mapping *)

Section KeyFacts.
Import PyStr MockHydra.

(** No piece of a split holds the separator. *)
Lemma split_pieces_no_sep (c : ascii) (s : string) :
  Forall (fun p => contains (String c EmptyString) p = false) (split c s).
Proof.
  induction s as [|x s IH]; simpl.
  - repeat constructor.
  - destruct (Ascii.eqb_spec x c) as [->|Hx].
    + constructor; [reflexivity | exact IH].
    + destruct (split c s) as [|p r]; [repeat constructor|].
      * simpl. apply Ascii.eqb_neq in Hx.
        now rewrite Ascii.eqb_sym, Hx.
      * inversion IH as [|? ? Hp Hr]; subst.
        constructor; [|exact Hr].
        simpl. apply Ascii.eqb_neq in Hx.
        now rewrite Ascii.eqb_sym, Hx.
Qed.

Lemma last_In (l : list string) : l <> [] -> In (last l) l.
Proof.
  unfold last.
  induction l as [|x l IH]; [contradiction|]; intros _.
  destruct l as [|y l]; [now left|].
  right. apply IH. discriminate.
Qed.

(** The key a path gives holds no slash. *)
Lemma project_key_no_slash (path : string) : contains "/" (project_key path) = false.
Proof.
  unfold project_key.
  pose proof (split_pieces_no_sep "/" path) as H.
  rewrite Forall_forall in H.
  apply H, last_In, split_not_nil.
Qed.

Section Dicts.
Context {V : Type}.
Implicit Types (d : dict V) (k : string) (v : V).

Lemma dict_get_None_keys d k : dict_get k d = None -> ~ In k (map fst d).
Proof.
  induction d as [|[k0 v0] d IH]; simpl; [tauto|].
  destruct (String.eqb_spec k k0) as [->|Hk]; [discriminate|].
  intros H [E|Hin]; [now subst | now apply IH].
Qed.

Lemma dict_set_absent d k v : dict_get k d = None -> dict_set k v d = (d ++ [(k, v)])%list.
Proof.
  induction d as [|[k0 v0] d IH]; simpl; [reflexivity|].
  destruct (String.eqb k k0); [discriminate|].
  intros H. now rewrite IH.
Qed.

Lemma dict_set_present_keys d k v :
  dict_get k d <> None -> map fst (dict_set k v d) = map fst d.
Proof.
  induction d as [|[k0 v0] d IH]; simpl; [contradiction|].
  destruct (String.eqb_spec k k0) as [->|Hk]; simpl; [reflexivity|].
  intros H. now rewrite IH.
Qed.

Lemma dict_del_absent d k : dict_get k d = None -> dict_del k d = d.
Proof.
  induction d as [|[k0 v0] d IH]; simpl; [reflexivity|].
  destruct (String.eqb k k0); [discriminate|].
  intros H. now rewrite IH.
Qed.

Lemma dict_del_set_absent d k v :
  dict_get k d = None -> dict_del k (dict_set k v d) = d.
Proof.
  induction d as [|[k0 v0] d IH]; simpl.
  - now rewrite String.eqb_refl.
  - destruct (String.eqb k k0) eqn:E; [discriminate|].
    intros H. simpl. now rewrite E, IH.
Qed.

Lemma dict_del_keys d k :
  map fst (dict_del k d) = filter (fun k' => negb (String.eqb k k')) (map fst d).
Proof.
  induction d as [|[k0 v0] d IH]; simpl; [reflexivity|].
  destruct (String.eqb k k0); simpl; now rewrite IH.
Qed.

Lemma In_dict_get d k v : NoDup (map fst d) -> In (k, v) d -> dict_get k d = Some v.
Proof.
  induction d as [|[k0 v0] d IH]; simpl; [contradiction|].
  intros Hnd [E|Hin].
  - injection E as -> ->. now rewrite String.eqb_refl.
  - inversion Hnd as [|? ? Hk0 Hd]; subst.
    destruct (String.eqb_spec k k0) as [->|Hk].
    + exfalso. apply Hk0. apply in_map_iff. now exists (k0, v).
    + now apply IH.
Qed.

End Dicts.

Lemma keys_ok_start : keys_ok projects_storage.
Proof.
  split.
  - repeat constructor; simpl; intuition discriminate.
  - repeat constructor.
Qed.

Lemma keys_ok_set (store : storage) (k : string) (p : project) :
  contains "/" k = false -> keys_ok store -> keys_ok (dict_set k p store).
Proof.
  intros Hk [Hnd Hsl].
  destruct (dict_get k store) as [q|] eqn:E.
  - unfold keys_ok. rewrite dict_set_present_keys by congruence. now split.
  - unfold keys_ok. rewrite (dict_set_absent _ _ _ E), map_app. simpl. split.
    + apply NoDup_app; [exact Hnd | repeat constructor; tauto |].
      intros x Hx [<-|[]]. now apply (dict_get_None_keys _ _ E).
    + apply Forall_app. split; [exact Hsl | now repeat constructor].
Qed.

Lemma keys_ok_del (store : storage) (k : string) :
  keys_ok store -> keys_ok (dict_del k store).
Proof.
  intros [Hnd Hsl].
  unfold keys_ok. rewrite dict_del_keys. split.
  - now apply NoDup_filter.
  - rewrite Forall_forall in *. intros x Hx.
    apply filter_In in Hx as [Hx _]. now apply Hsl.
Qed.

Lemma handle_keys_ok {RT : Runtime} (m : method) (req : request) (store : storage) :
  keys_ok store -> keys_ok (storage_after (handle m req store)).
Proof.
  intros Hs.
  destruct m; cbn [handle].
  - exact Hs.
  - destruct (do_POST_cases store req) as [->|[_ (n & rf & ->)]]; [exact Hs|].
    destruct (create_project_cases store (path req) n rf) as [->|[[msg ->]|[d ->]]];
      try exact Hs.
    apply keys_ok_set; [apply project_key_no_slash | exact Hs].
  - exact Hs.
  - unfold do_DELETE.
    destruct (startswith "/project/" (path req)); [|exact Hs].
    destruct (dict_mem _ store); [|exact Hs].
    now apply keys_ok_del.
Qed.

(** What every mapping the server can hold satisfies. *)
Lemma reachable_inv {RT : Runtime} (store : storage) :
  reachable store -> names_agree store /\ keys_ok store.
Proof.
  induction 1 as [|store m req _ [IHn IHk]].
  - split; [exact names_agree_start | exact keys_ok_start].
  - split; [now apply handle_names_agree | now apply handle_keys_ok].
Qed.

End KeyFacts.

(* ================================================================= *)
(** ** The mapping over a run of requests *)

Section MappingFacts.
Import PyStr MockHydra.
Context {RT : Runtime}.

(** X1: in every mapping the server can reach, no two entries share a
    key, and every key is one path segment: it holds no slash. *)
Theorem project_names_unique (store : storage) :
  reachable store ->
  NoDup (map fst store)
  /\ (forall k p, In (k, p) store -> contains "/" k = false).
Proof.
  intros Hreach.
  destruct (reachable_inv store Hreach) as [_ [Hnd Hsl]].
  split; [exact Hnd|].
  intros k p Hin.
  rewrite Forall_forall in Hsl.
  apply Hsl, in_map_iff. now exists (k, p).
Qed.

(** X2: in every mapping the server can reach, the list GET of [/]
    answers with holds the records of the mapping in its order, and each
    record of the list is what GET of [/project/] followed by its name
    answers with. *)
Theorem listing_matches_lookup (store : storage) :
  reachable store ->
  do_GET store "/" = json_response 200 (PList (map project_json (dict_values store)))
  /\ (forall p, In p (dict_values store) ->
        do_GET store ("/project/" ++ name p) = json_response 200 (project_json p)).
Proof.
  intros Hreach.
  destruct (reachable_inv store Hreach) as [Hnames [Hnd Hsl]].
  split; [reflexivity|].
  intros p Hp.
  apply in_map_iff in Hp as [[k q] [E Hin]]. cbn in E. subst q.
  rewrite (Hnames _ _ Hin).
  assert (Hk : contains "/" k = false).
  { rewrite Forall_forall in Hsl. apply Hsl, in_map_iff. now exists (k, p). }
  now rewrite do_GET_project, (project_key_segment _ Hk), (In_dict_get _ _ _ Hnd Hin).
Qed.

(** X3: in every mapping the server can reach, GET of [/project/{name}]
    answers 404 with the not-found error, or 200 with a record whose
    [name] is [{name}]. *)
Theorem get_project_named (store : storage) (segment : string) :
  reachable store ->
  contains "/" segment = false ->
  do_GET store ("/project/" ++ segment) = json_response 404 (error_body "not found")
  \/ (status (do_GET store ("/project/" ++ segment)) = 200
      /\ field "name" (do_GET store ("/project/" ++ segment)) = Some (PStr segment)).
Proof.
  intros Hreach Hseg.
  destruct (reachable_inv store Hreach) as [Hnames _].
  rewrite do_GET_project, (project_key_segment _ Hseg).
  destruct (dict_get segment store) as [p|] eqn:E; [right | now left].
  split; [reflexivity|].
  cbn. now rewrite (Hnames _ _ (dict_get_In _ _ _ E)).
Qed.

(** X4: the mapping changes only through a POST or a DELETE under
    [/project/] that is answered 200.  A request that is answered with
    an error, that crashes or that blocks leaves the mapping as it was. *)
Theorem mapping_changes_only_on_200 (m : method) (req : request) (store : storage) :
  storage_after (handle m req store) <> store ->
  (m = POST \/ m = DELETE)
  /\ startswith "/project/" (path req) = true
  /\ exists r, handle m req store = Responded (storage_after (handle m req store)) r
               /\ status r = 200.
Proof.
  intros Hchg.
  destruct m; cbn [handle] in *; try (now contradiction Hchg).
  - destruct (do_POST_cases store req) as [Hsame|[Hpath (n & rf & E)]]; [contradiction|].
    split; [now left|]. split; [exact Hpath|].
    rewrite E in *.
    destruct (create_project_cases store (path req) n rf) as [B|[[msg B]|[d B]]];
      rewrite B in *; try (now contradiction Hchg).
    eexists. split; reflexivity.
  - unfold do_DELETE in *.
    destruct (startswith "/project/" (path req)); [|now contradiction Hchg].
    destruct (dict_mem _ store); [|now contradiction Hchg].
    split; [now right|]. split; [reflexivity|].
    eexists. split; reflexivity.
Qed.

(** X5: a POST under [/project/] does not look at its body.  The body is
    taken by the read of line 183, the read of line 240 finds the end of
    the stream, and the record stored and sent back is the default one:
    the name of the path, its title-cased form, enabled. *)
Theorem post_project_ignores_body (store : storage) (segment body : string)
    (header : option string) :
  contains "/" segment = false ->
  declared_length header = Some (Z.of_nat (String.length body)) ->
  do_POST store (body_request ("/project/" ++ segment) header body)
  = Responded (dict_set segment (default_record segment) store)
      (json_response 200 (project_json (default_record segment))).
Proof.
  intros Hseg Hlen.
  unfold body_request.
  rewrite (post_project_default store segment body header Hlen).
  now rewrite (project_key_segment _ Hseg).
Qed.

(** What a POST under [/project/] that is answered 200 has done: it has
    stored, under the key of its path, the record it sends back. *)
Lemma post_ok_stored (store store' : storage) (req : request) (r : response) :
  startswith "/project/" (path req) = true ->
  do_POST store req = Responded store' r ->
  status r = 200 ->
  exists d,
    store' = dict_set (project_key (path req))
               (stored_project (project_key (path req)) d) store
    /\ r = json_response 200 (project_json (stored_project (project_key (path req)) d)).
Proof.
  intros Hpath Hpost Hok.
  unfold do_POST in Hpost.
  destruct (declared_length _) as [n|]; [|discriminate].
  destruct (read_post_data _ n) as [[post_data rf]|]; [|discriminate].
  destruct (String.eqb_spec (path req) "/login") as [Hlogin|_].
  { rewrite Hlogin in Hpath. discriminate. }
  rewrite Hpath in Hpost.
  destruct (create_project_cases store (path req) n rf) as [B|[[msg B]|[d B]]];
    rewrite B in Hpost; try discriminate.
  - injection Hpost as _ <-. discriminate.
  - injection Hpost as <- <-. now exists d.
Qed.

(** X7: creating a project that was not there and deleting it gives back
    the mapping as it was, entry for entry and in the same order, and the
    DELETE is answered 200: for every request, body and stream, whenever
    the POST is answered 200. *)
Theorem post_then_delete_restores (store store' : storage) (req : request) (r : response) :
  startswith "/project/" (path req) = true ->
  do_POST store req = Responded store' r ->
  status r = 200 ->
  dict_get (project_key (path req)) store = None ->
  do_DELETE store' (path req) = (store, json_response 200 (status_body "deleted")).
Proof.
  intros Hpath Hpost Hok Habsent.
  destruct (post_ok_stored _ _ _ _ Hpath Hpost Hok) as [d [-> _]].
  destruct (startswith_inv _ _ Hpath) as [rest E].
  rewrite E in *.
  rewrite do_DELETE_project.
  unfold dict_mem.
  now rewrite dict_get_set_same, (dict_del_set_absent _ _ _ Habsent).
Qed.

(** X8: DELETE under [/project/] twice: the second one is answered 404
    and leaves the mapping as the first one left it. *)
Theorem delete_twice (store : storage) (rest : string) :
  do_DELETE (fst (do_DELETE store ("/project/" ++ rest))) ("/project/" ++ rest)
  = (fst (do_DELETE store ("/project/" ++ rest)), json_response 404 (error_body "not found")).
Proof.
  rewrite !do_DELETE_project.
  destruct (dict_mem (project_key ("/project/" ++ rest)) store) eqn:E; cbn [fst].
  - unfold dict_mem. now rewrite dict_get_del_same.
  - now rewrite E.
Qed.

(** X9: where a created project shows in the list of GET [/], for every
    request, body and stream, whenever the POST is answered 200.  The
    answer carries the record stored; a name that was not in the mapping
    goes last, after the records that were there; a name that was there
    keeps its place: the keys and their order do not change. *)
Theorem post_project_listing (store store' : storage) (req : request) (r : response) :
  startswith "/project/" (path req) = true ->
  do_POST store req = Responded store' r ->
  status r = 200 ->
  exists stored : project,
    r = json_response 200 (project_json stored)
    /\ (dict_get (project_key (path req)) store = None ->
        do_GET store' "/"
        = json_response 200
            (PList (map project_json (dict_values store) ++ [project_json stored])))
    /\ (dict_get (project_key (path req)) store <> None ->
        map fst store' = map fst store).
Proof.
  intros Hpath Hpost Hok.
  destruct (post_ok_stored _ _ _ _ Hpath Hpost Hok) as [d [-> ->]].
  exists (stored_project (project_key (path req)) d).
  split; [reflexivity|]. split.
  - intros Habsent.
    rewrite (dict_set_absent _ _ _ Habsent).
    unfold do_GET, dict_values.
    cbn [String.eqb Ascii.eqb Bool.eqb contains startswith orb negb andb].
    now rewrite !map_app.
  - intros Hpresent. now apply dict_set_present_keys.
Qed.

End MappingFacts.

(* ================================================================= *)
(** ** More on GET, and the answers of every handler *)

Section AnswerFacts.
Import PyStr MockHydra.
Context {RT : Runtime}.

(** X10: a search whose path holds [/constituents] anywhere, in its query
    for one, is answered 404 and not with the search result: the
    constituents branch of line 125 is tested before the search branch of
    line 156, and the second piece of such a path is not [build].
    Without [/constituents] the answer is the fixed result, whatever the
    mapping and the query. *)
Theorem search_unless_constituents (store : storage) (rest : string) :
  do_GET store ("/search" ++ rest)
  = (if contains "/constituents" ("/search" ++ rest)
     then json_response 404 (error_body "not found")
     else json_response 200 search_results)
  /\ do_GET store ("/api/search" ++ rest)
     = (if contains "/constituents" ("/api/search" ++ rest)
        then json_response 404 (error_body "not found")
        else json_response 200 search_results).
Proof.
  split; unfold do_GET;
    cbn [append String.eqb Ascii.eqb Bool.eqb andb startswith orb];
    match goal with |- context [contains "/constituents" ?p] =>
      destruct (contains "/constituents" p); [|reflexivity] end;
    cbn [split Ascii.eqb Bool.eqb];
    destruct (split "/" rest) as [|p r]; cbn [List.length item nth String.eqb Ascii.eqb Bool.eqb];
    now rewrite ?andb_false_r.
Qed.

Ltac break_match :=
  match goal with
  | |- context [match ?x with _ => _ end] => destruct x
  end.

Lemma do_GET_json (store : storage) (path : string) :
  exists code v, do_GET store path = json_response code v
                 /\ (code = 200 \/ code = 400 \/ code = 404).
Proof.
  unfold do_GET, not_found, invalid_build_id.
  repeat break_match; eexists; eexists; (split; [reflexivity | tauto]).
Qed.

Lemma login_json (post_data : string) :
  exists code v, body (login post_data) = Some v
                 /\ status (login post_data) = code
                 /\ In ("Content-type", "application/json") (headers (login post_data))
                 /\ (code = 200 \/ code = 400 \/ code = 401 \/ code = 500).
Proof.
  unfold login.
  destruct post_data; [|destruct (credentials _) as [[u p]|msg];
                         [destruct (py_eq_str u "admin" && py_eq_str p "admin")|]];
    eexists; eexists; (split; [reflexivity|]); (split; [reflexivity|]);
    (split; [now left | tauto]).
Qed.

(** X11: whatever a handler of the mock API answers, it answers in JSON:
    there is a body, and the header [Content-type] is sent with the value
    [application/json].  GET answers 200, 400 or 404 only; POST 200, 400,
    401 or 500; PUT 200; DELETE 200 or 404. *)
Theorem answers_are_json (m : method) (req : request) (store store' : storage)
    (r : response) :
  handle m req store = Responded store' r ->
  (exists v, body r = Some v)
  /\ In ("Content-type", "application/json") (headers r)
  /\ match m with
     | GET => status r = 200 \/ status r = 400 \/ status r = 404
     | POST => status r = 200 \/ status r = 400 \/ status r = 401 \/ status r = 500
     | PUT => status r = 200
     | DELETE => status r = 200 \/ status r = 404
     end.
Proof.
  destruct m; cbn [handle].
  - intros [= _ <-].
    destruct (do_GET_json store (path req)) as (code & v & -> & Hcode).
    split; [now exists v|]. split; [now left | exact Hcode].
  - unfold do_POST.
    destruct (declared_length _) as [n|]; [|discriminate].
    destruct (read_post_data _ n) as [[post_data rf]|]; [|discriminate].
    destruct (String.eqb (path req) "/login").
    { intros [= _ <-].
      destruct (login_json post_data) as (code & v & Hb & Hs & Hh & Hcode).
      split; [now exists v|]. split; [exact Hh|]. now rewrite Hs. }
    destruct (startswith "/project/" (path req)).
    { destruct (create_project_cases store (path req) n rf) as [B|[[msg B]|[d B]]];
        rewrite B; [discriminate | |]; intros [= _ <-];
        (split; [eexists; reflexivity|]); (split; [now left | cbn; tauto]). }
    intros [= _ <-].
    split; [eexists; reflexivity|]. split; [now left | cbn; tauto].
  - intros [= _ <-].
    split; [eexists; reflexivity|]. split; [now left | reflexivity].
  - unfold do_DELETE.
    destruct (startswith "/project/" (path req)); [destruct (dict_mem _ store)|];
      intros [= _ <-]; (split; [eexists; reflexivity|]);
      (split; [now left | cbn; tauto]).
Qed.

End AnswerFacts.

(* ================================================================= *)
(** ** More on the health check *)

Section ProbeFacts.
Import MockHydra.

(** X12: the health check answers 200 in one case only: the path is
    [/health] and the probe of the mock server was answered 200. *)
Theorem healthy_only_if_probe_ok (net : string -> Z -> probe) (path : string) :
  status (run net (HealthCheck.do_GET path)) = 200
  <-> path = "/health" /\ net "http://localhost:3000/" 5 = Answered 200.
Proof.
  unfold HealthCheck.do_GET.
  destruct (String.eqb_spec path "/health") as [->|Hpath]; cbn.
  - destruct (net "http://localhost:3000/" 5) as [code|msg]; cbn.
    + destruct (Z.eqb_spec code 200) as [->|Hcode]; cbn.
      * tauto.
      * split; [discriminate | intros [_ [= E]]; contradiction].
    + split; [discriminate | intros [_ [=]]].
  - split; [discriminate | tauto].
Qed.

End ProbeFacts.

(* ================================================================= *)
(** ** More on login *)

Section CredentialFacts.
Import PyStr MockHydra.
Context {RT : Runtime}.

Lemma contains_app_literal (c : ascii) (pre s : string) :
  contains (String c EmptyString) pre = false ->
  contains (String c EmptyString) s = false ->
  contains (String c EmptyString) (pre ++ s) = false.
Proof.
  induction pre as [|x pre IH]; simpl; [auto|].
  intros H Hs.
  apply orb_false_iff in H as [Hx Hpre].
  now rewrite Hx, IH.
Qed.

Lemma contains_startswith (needle s : string) :
  startswith needle s = true -> contains needle s = true.
Proof. intros H. destruct s; simpl; now rewrite H. Qed.

(** The two parameters of a form body, in the order of the body. *)
Lemma split_form (u p : string) :
  contains "&" u = false -> contains "&" p = false ->
  split "&" ("username=" ++ u ++ "&password=" ++ p)
  = ["username=" ++ u; "password=" ++ p].
Proof.
  intros Hu Hp.
  change ("username=" ++ u ++ "&password=" ++ p)
    with ("username=" ++ (u ++ String "&" ("password=" ++ p))).
  replace ("username=" ++ (u ++ String "&" ("password=" ++ p)))
    with (("username=" ++ u) ++ String "&" ("password=" ++ p))
    by (cbn; do 9 f_equal).
  rewrite split_app_sep.
  rewrite (split_no_sep "&" ("username=" ++ u))
    by (apply (contains_app_literal "&" "username="); [reflexivity | exact Hu]).
  rewrite (split_no_sep "&" ("password=" ++ p))
    by (apply (contains_app_literal "&" "password="); [reflexivity | exact Hp]).
  reflexivity.
Qed.

(** X13: what the form branch of login reads.  From a body
    [username=U&password=P] it takes U and P up to their first equals
    sign: whatever follows a second equals sign in a parameter is
    dropped, so [username=admin=x&password=admin=y] is the admin pair. *)
Theorem form_credentials_cut (u p : string) :
  contains "&" u = false ->
  contains "&" p = false ->
  decode_utf8 ("username=" ++ u ++ "&password=" ++ p)
  = Ok ("username=" ++ u ++ "&password=" ++ p) ->
  credentials ("username=" ++ u ++ "&password=" ++ p)
  = Ok (PStr (item 0 (split "=" u)), PStr (item 0 (split "=" p))).
Proof.
  intros Hu Hp Hdecode.
  unfold credentials.
  rewrite (contains_startswith _ _ (startswith_app "username=" (u ++ "&password=" ++ p))).
  rewrite Hdecode.
  unfold form_credentials.
  rewrite (split_form u p Hu Hp).
  cbn [fold_left].
  rewrite (startswith_app "username=" u).
  cbn [append startswith Ascii.eqb Bool.eqb andb split].
  destruct (split "=" u) as [|a l] eqn:Eu; [now apply split_not_nil in Eu|].
  destruct (split "=" p) as [|b l'] eqn:Ep; [now apply split_not_nil in Ep|].
  reflexivity.
Qed.

(** X14: a JSON body at login that is no object, or an object that lacks
    a credential.  A list, a string, a number, a literal: [get] raises and
    the answer is 500 with the message of the [AttributeError], not 400
    or 401.  An object without [username] or without [password] is
    answered 401. *)
Theorem login_json_edges (post_data text : string) (data : pyval) :
  post_data <> EmptyString ->
  contains "username=" post_data = false ->
  decode_utf8 post_data = Ok text ->
  json_loads text = Ok data ->
  ((forall d, data <> PDict d) ->
   login post_data
   = json_response 500
       (error_body ("'" ++ type_name data ++ "' object has no attribute 'get'")))
  /\ (forall d, data = PDict d ->
        dict_get "username" d = None \/ dict_get "password" d = None ->
        login post_data = json_response 401 (error_body "unauthorized")).
Proof.
  intros Hne Hform Hdecode Hloads.
  destruct post_data as [|c post_data]; [contradiction|].
  unfold login, credentials.
  rewrite Hform, Hdecode, Hloads.
  split.
  - intros Hnodict.
    destruct data; try reflexivity.
    now contradiction (Hnodict d).
  - intros d -> Hmiss.
    cbn [py_get].
    destruct Hmiss as [-> | ->]; cbn [py_eq_str andb]; [reflexivity|].
    now rewrite andb_false_r.
Qed.

End CredentialFacts.

(* ================================================================= *)
(** ** When GET answers 400, and when POST answers at all *)

Section EdgeFacts.
Import PyStr MockHydra.

(** X17: for a request target that begins with a slash, GET answers 400
    in one case only: the path is under [/build/] and [int] refuses its
    last segment. *)
Theorem bad_request_only_under_build (store : storage) (rest : string) :
  status (do_GET store (String "/" rest)) = 400
  <-> startswith "/build/" (String "/" rest) = true
      /\ int (last (split "/" (String "/" rest))) = None.
Proof.
  unfold do_GET.
  destruct (String.eqb (String "/" rest) "/" && negb (contains "api" (String "/" rest))) eqn:E1.
  { apply andb_true_iff in E1 as [E1 _]. apply String.eqb_eq in E1.
    injection E1 as ->. split; [discriminate | intros [H _]; cbn in H; discriminate H]. }
  destruct (startswith "/api/v1/projects" (String "/" rest)) eqn:E2.
  { destruct (startswith_inv _ _ E2) as [r E]. injection E as ->.
    split; [discriminate | intros [H _]; cbn in H; discriminate H]. }
  destruct (startswith "/project/" (String "/" rest)) eqn:E3.
  { destruct (startswith_inv _ _ E3) as [r E]. injection E as ->.
    split; [|intros [H _]; cbn in H; discriminate H].
    destruct (dict_get _ store); [discriminate|].
    destruct (String.eqb _ "definitely-does-not-exist"); discriminate. }
  destruct (startswith "/api/jobsets" (String "/" rest)) eqn:E4.
  { destruct (startswith_inv _ _ E4) as [r E]. injection E as ->.
    split; [discriminate | intros [H _]; cbn in H; discriminate H]. }
  destruct (startswith "/jobset/" (String "/" rest)) eqn:E5.
  { destruct (startswith_inv _ _ E5) as [r E]. injection E as ->.
    split; [|intros [H _]; cbn in H; discriminate H].
    destruct (_ && _ && _); discriminate. }
  destruct (startswith "/build/" (String "/" rest)) eqn:Hbuild.
  { destruct (int _) as [n|].
    - split; [|intros [_ [=]]].
      destruct (n =? 123456); [discriminate|].
      destruct (n =? 123459); [discriminate|].
      destruct (n =? 123460); discriminate.
    - now split. }
  split; [|intros [H _]; cbn in H; discriminate H].
  destruct (contains "/constituents" (String "/" rest)).
  - destruct ((3 <=? List.length (split "/" (String "/" rest)))%nat
              && String.eqb (item 1 (split "/" (String "/" rest))) "build") eqn:Hparts;
      [|discriminate].
    exfalso.
    cbn [split Ascii.eqb Bool.eqb] in Hparts.
    apply andb_true_iff in Hparts as [Hlen Hitem].
    destruct (split "/" rest) as [|a [|b tl]] eqn:E; try discriminate.
    cbn [item nth] in Hitem. apply String.eqb_eq in Hitem. subst a.
    destruct (split_cons_inv _ _ _ _ _ E) as [s' [-> _]].
    discriminate Hbuild.
  - destruct (_ || _); discriminate.
Qed.

(** X18: when a POST is answered at all.  The [Content-Length] must be
    one [int] accepts, the read of line 183 must return, and, for a path
    under [/project/] that declares a body, the second read of line 240
    must return as well.  Otherwise the handler raises or waits, and
    nothing is written. *)
Theorem post_answered_iff {RT : Runtime} (store : storage) (req : request) :
  (exists store' r, do_POST store req = Responded store' r)
  <-> exists n post_data rf,
        declared_length (content_length_header req) = Some n
        /\ read_post_data (rfile req) n = Some (post_data, rf)
        /\ (path req = "/login"
            \/ startswith "/project/" (path req) = false
            \/ n <= 0
            \/ read rf n <> None).
Proof.
  unfold do_POST.
  destruct (declared_length (content_length_header req)) as [n|] eqn:Hlen.
  2:{ split; [intros (? & ? & [=]) | intros (? & ? & ? & [=] & _)]. }
  destruct (read_post_data (rfile req) n) as [[post_data rf]|] eqn:Hfirst.
  2:{ split; [intros (? & ? & [=])|].
      intros (n' & ? & ? & [= <-] & H & _). congruence. }
  assert (Hgiven : forall P : Z -> string -> stream -> Prop,
             P n post_data rf ->
             exists n' pd' rf',
               Some n = Some n' /\ read_post_data (rfile req) n' = Some (pd', rf')
               /\ P n' pd' rf').
  { intros P HP. exists n, post_data, rf. now repeat split. }
  destruct (String.eqb_spec (path req) "/login") as [Hlogin|Hlogin].
  { split; [intros _ | intros _; now eexists; eexists].
    apply (Hgiven (fun n' _ rf' => _)). now left. }
  destruct (startswith "/project/" (path req)) eqn:Hpath.
  2:{ split; [intros _ | intros _; now eexists; eexists].
      apply (Hgiven (fun n' _ rf' => _)). now right; left. }
  unfold create_project.
  destruct (Z.ltb_spec 0 n) as [Hpos|Hneg].
  - destruct (read rf n) as [[pd rf']|] eqn:Hread.
    + split.
      * intros _. apply (Hgiven (fun n' _ rf' => _)).
        right. right. right. congruence.
      * intros _.
        destruct (py_get _ "displayname" _); [|now eexists; eexists].
        destruct (py_get _ "enabled" _); [|now eexists; eexists].
        destruct (dict_get _ _); now eexists; eexists.
    + split; [intros (? & ? & [=])|].
      intros (n' & pd' & rf'' & [= <-] & Hr & [H|[H|[H|H]]]);
        [contradiction | discriminate | lia |].
      rewrite Hfirst in Hr. injection Hr as <- <-. contradiction.
  - split.
    + intros _. apply (Hgiven (fun n' _ rf' => _)). right. right. left. lia.
    + intros _.
      destruct (py_get _ "displayname" _); [|now eexists; eexists].
      destruct (py_get _ "enabled" _); [|now eexists; eexists].
      destruct (dict_get _ _); now eexists; eexists.
Qed.

End EdgeFacts.

(* ================================================================= *)
(** ** The statements above on concrete requests *)

Section Instances.
Import PyStr MockHydra.

Lemma create_then_read_witness :
  exists (store' : storage) (stored : project),
    do_POST (RT := Sample.runtime) projects_storage
      {| path := "/project/demo";
         content_length_header := Some "2";
         rfile := {| pending := "{}"; at_eof := true |} |}
    = Responded store' (json_response 200 (project_json stored))
    /\ dict_get "demo" store' = Some stored
    /\ do_GET store' "/project/demo" = json_response 200 (project_json stored).
Proof.
  exact (create_then_read (RT := Sample.runtime) projects_storage "demo" "{}" (Some "2") eq_refl).
Defined.


Lemma health_check_contract_witness :
  status (run mock_up (HealthCheck.do_GET "/health")) = 200
  /\ run mock_down (HealthCheck.do_GET "/health")
     = json_response 503 (HealthCheck.unhealthy "Connection refused")
  /\ status (run mock_empty (HealthCheck.do_GET "/health")) = 503
  /\ status (run mock_up (HealthCheck.do_GET "/healthz")) = 404.
Proof.
  destruct (health_check_contract mock_up) as (_ & Hup & _ & _ & Hother).
  destruct (health_check_contract mock_down) as (_ & _ & Hdown & _).
  destruct (health_check_contract mock_empty) as (_ & _ & _ & Hempty & _).
  refine (conj (f_equal status (Hup eq_refl))
         (conj (Hdown _ eq_refl)
         (conj (f_equal status (Hempty 204 eq_refl ltac:(discriminate)))
               (f_equal status (proj1 (Hother "/healthz" ltac:(discriminate))))))).
Defined.

Lemma stored_name_is_key_witness :
  reachable (RT := Sample.runtime) (projects_storage ++ [("demo", demo)])%list
  /\ name demo = "demo".
Proof.
  assert (R : reachable (RT := Sample.runtime) (projects_storage ++ [("demo", demo)])%list)
    by exact (reachable_step (RT := Sample.runtime) projects_storage POST post_demo
                (reachable_start (RT := Sample.runtime))).
  exact (conj R (stored_name_is_key (RT := Sample.runtime) _ R "demo" demo eq_refl)).
Defined.

Lemma requests_frame_witness :
  dict_get "nixpkgs"
    (storage_after (handle (RT := Sample.runtime) POST delete_hydra projects_storage))
  = dict_get "nixpkgs" projects_storage
  /\ dict_get "nixpkgs"
       (storage_after (handle (RT := Sample.runtime) DELETE delete_hydra projects_storage))
     = dict_get "nixpkgs" projects_storage
  /\ dict_get "hydra"
       (storage_after (handle (RT := Sample.runtime) DELETE delete_hydra projects_storage))
     = None.
Proof.
  destruct (requests_frame (RT := Sample.runtime) projects_storage "hydra" delete_hydra
              eq_refl eq_refl) as (Hpost & Hdelete & _).
  exact (conj (Hpost "nixpkgs" ltac:(discriminate))
           (conj (Hdelete "nixpkgs" ltac:(discriminate)) eq_refl)).
Defined.

Lemma form_credentials_cut_witness :
  credentials (RT := Sample.runtime) "username=admin=x&password=admin=y"
  = Ok (PStr "admin", PStr "admin").
Proof.
  exact (form_credentials_cut (RT := Sample.runtime) "admin=x" "admin=y"
           eq_refl eq_refl eq_refl).
Defined.

Lemma login_json_edges_witness :
  login (RT := Sample.runtime) "[1]"
  = json_response 500 (error_body "'list' object has no attribute 'get'")
  /\ login (RT := Sample.runtime) "{}"
     = json_response 401 (error_body "unauthorized").
Proof.
  split.
  - apply (proj1 (login_json_edges (RT := Sample.runtime) "[1]" "[1]" (PList [PInt 1])
                    ltac:(discriminate) eq_refl eq_refl eq_refl)).
    discriminate.
  - apply (proj2 (login_json_edges (RT := Sample.runtime) "{}" "{}" (PDict [])
                    ltac:(discriminate) eq_refl eq_refl eq_refl) [] eq_refl).
    now left.
Defined.

Lemma demo_reachable :
  reachable (RT := Sample.runtime) (projects_storage ++ [("demo", demo)])%list.
Proof.
  exact (reachable_step (RT := Sample.runtime) projects_storage POST post_demo
           (reachable_start (RT := Sample.runtime))).
Qed.

Lemma project_names_unique_witness :
  NoDup ["nixpkgs"; "hydra"; "demo"]
  /\ contains "/" "demo" = false.
Proof.
  destruct (project_names_unique (RT := Sample.runtime) _ demo_reachable) as [Hnd Hsl].
  exact (conj Hnd (Hsl "demo" demo (or_intror (or_intror (or_introl eq_refl))))).
Defined.

Lemma listing_matches_lookup_witness :
  do_GET (projects_storage ++ [("demo", demo)])%list "/project/demo"
  = json_response 200 (project_json demo).
Proof.
  exact (proj2 (listing_matches_lookup (RT := Sample.runtime) _ demo_reachable) demo
           (or_intror (or_intror (or_introl eq_refl)))).
Defined.

Lemma get_project_named_witness :
  do_GET (projects_storage ++ [("demo", demo)])%list "/project/demo"
  = json_response 404 (error_body "not found")
  \/ (status (do_GET (projects_storage ++ [("demo", demo)])%list "/project/demo") = 200
      /\ field "name" (do_GET (projects_storage ++ [("demo", demo)])%list "/project/demo")
         = Some (PStr "demo")).
Proof.
  exact (get_project_named (RT := Sample.runtime) _ "demo" demo_reachable eq_refl).
Defined.

Lemma mapping_changes_only_on_200_witness :
  exists r, handle (RT := Sample.runtime) DELETE delete_hydra projects_storage
            = Responded
                (storage_after (handle (RT := Sample.runtime) DELETE delete_hydra projects_storage))
                r
            /\ status r = 200.
Proof.
  exact (proj2 (proj2 (mapping_changes_only_on_200 (RT := Sample.runtime)
                         DELETE delete_hydra projects_storage ltac:(discriminate)))).
Defined.

Lemma post_project_ignores_body_witness :
  do_POST (RT := Sample.runtime) projects_storage
    (body_request "/project/demo" (Some "9") "[1, 2, 3]")
  = Responded (projects_storage ++ [("demo", demo)])%list
      (json_response 200 (project_json demo)).
Proof.
  exact (post_project_ignores_body (RT := Sample.runtime) projects_storage "demo" "[1, 2, 3]"
           (Some "9") eq_refl eq_refl).
Defined.

Lemma post_then_delete_restores_witness :
  do_DELETE (projects_storage ++ [("demo", demo)])%list "/project/demo"
  = (projects_storage, json_response 200 (status_body "deleted")).
Proof.
  exact (post_then_delete_restores (RT := Sample.runtime) projects_storage
           (projects_storage ++ [("demo", demo)])%list post_demo
           (json_response 200 (project_json demo)) eq_refl eq_refl eq_refl eq_refl).
Defined.

Lemma post_project_listing_witness :
  exists stored : project,
    json_response 200 (project_json demo) = json_response 200 (project_json stored)
    /\ (dict_get "demo" projects_storage = None ->
        do_GET (projects_storage ++ [("demo", demo)])%list "/"
        = json_response 200
            (PList (map project_json (dict_values projects_storage) ++ [project_json stored])))
    /\ (dict_get "demo" projects_storage <> None ->
        map fst (projects_storage ++ [("demo", demo)])%list = map fst projects_storage).
Proof.
  exact (post_project_listing (RT := Sample.runtime) projects_storage
           (projects_storage ++ [("demo", demo)])%list post_demo
           (json_response 200 (project_json demo)) eq_refl eq_refl eq_refl).
Defined.

Lemma answers_are_json_witness :
  (exists v, body (login (RT := Sample.runtime) "username=admin&password=admin") = Some v)
  /\ In ("Content-type", "application/json")
        (headers (login (RT := Sample.runtime) "username=admin&password=admin"))
  /\ (status (login (RT := Sample.runtime) "username=admin&password=admin") = 200
      \/ status (login (RT := Sample.runtime) "username=admin&password=admin") = 400
      \/ status (login (RT := Sample.runtime) "username=admin&password=admin") = 401
      \/ status (login (RT := Sample.runtime) "username=admin&password=admin") = 500).
Proof.
  exact (answers_are_json (RT := Sample.runtime) POST form_login projects_storage
           projects_storage _ eq_refl).
Defined.

Lemma post_project_blocks_witness :
  do_POST (RT := Sample.runtime) projects_storage
    {| path := "/project/demo";
       content_length_header := Some "2";
       rfile := {| pending := "{}"; at_eof := false |} |}
  = Blocked projects_storage.
Proof.
  exact (post_project_blocks (RT := Sample.runtime) projects_storage "demo" "{}" (Some "2")
           ltac:(discriminate) eq_refl).
Defined.

Lemma post_ok_then_get_witness :
  exists stored,
    dict_get "demo" (projects_storage ++ [("demo", demo)])%list = Some stored
    /\ json_response 200 (project_json demo) = json_response 200 (project_json stored)
    /\ do_GET (projects_storage ++ [("demo", demo)])%list "/project/demo"
       = json_response 200 (project_json demo).
Proof.
  exact (post_ok_then_get (RT := Sample.runtime) projects_storage
           (projects_storage ++ [("demo", demo)])%list post_demo
           (json_response 200 (project_json demo)) eq_refl eq_refl eq_refl).
Defined.

Lemma create_never_answered_witness :
  do_POST (RT := Sample.runtime) projects_storage
    {| path := "/project/demo";
       content_length_header := Some "18";
       rfile := {| pending := "{" ++ Sample.quoted "enabled" ++ ": false}"; at_eof := false |} |}
  = Blocked projects_storage
  /\ do_GET projects_storage "/project/demo" = json_response 404 (error_body "not found").
Proof.
  destruct (create_never_answered (RT := Sample.runtime) projects_storage "demo"
              ("{" ++ Sample.quoted "enabled" ++ ": false}") (Some "18")
              ltac:(discriminate) eq_refl) as [Hblocked Hget].
  exact (conj Hblocked (Hget eq_refl)).
Defined.

End Instances.
